(** * Semantic Scholar MCP server: a shallow embedding of [server.py]

    The development follows [src/semantic_scholar_mcp/server.py].  Python
    values that travel through the handlers (tool arguments, parsed JSON
    bodies, query parameters) are an inductive type [pyval]; dictionaries are
    association lists in insertion order, since the code joins and prints
    their keys in that order.  The handlers run in a small monad that threads
    the log of outbound HTTP requests and carries Python exceptions, so that
    [try/except], the request actually sent and the value returned are all
    observable.

    Modelling limits, stated once:
    - floats are left out of [pyval];
    - strings are byte strings: [lower] and [repr] are exact on ASCII text and
      leave bytes above 127 unchanged;
    - [exn] stands for instances of Python's [Exception] (what
      [except Exception] catches); interpreter signals deriving only from
      [BaseException] are outside the model;
    - [requests.get] and [response.json()] belong to external libraries: the
      upstream is an arbitrary function from requests to either an exception
      or a response whose [json] is either an exception or a value;
    - [mcp.types.TextContent] is a pydantic model with [text : str]; its
      constructor rejects any value that is not a string. *)

From Stdlib Require Import String Ascii List ZArith Lia Bool DecimalString.
Import ListNotations.
Open Scope string_scope.
Open Scope Z_scope.

Set Warnings "-register-all".

(** ** Python values *)

Inductive pyval : Type :=
| VNone
| VBool (b : bool)
| VInt (z : Z)
| VStr (s : string)
| VList (items : list pyval)
| VDict (entries : list (string * pyval)).

(** A [dict] with string keys, in insertion order. *)
Definition dict := list (string * pyval).

(** [type(v).__name__] *)
Definition type_name (v : pyval) : string :=
  match v with
  | VNone => "NoneType"
  | VBool _ => "bool"
  | VInt _ => "int"
  | VStr _ => "str"
  | VList _ => "list"
  | VDict _ => "dict"
  end.

(** [bool(v)] *)
Definition truthy (v : pyval) : bool :=
  match v with
  | VNone => false
  | VBool b => b
  | VInt z => negb (z =? 0)
  | VStr s => negb (s =? "")%string
  | VList items => match items with [] => false | _ => true end
  | VDict entries => match entries with [] => false | _ => true end
  end.

(** *** Text of values: [repr] and [str] *)

Definition str_of_Z (z : Z) : string := NilZero.string_of_int (Z.to_int z).

Definition hex_digit (n : nat) : ascii :=
  if Nat.ltb n 10 then ascii_of_nat (48 + n) else ascii_of_nat (87 + n).

Definition hex2 (n : nat) : string :=
  String (hex_digit (Nat.div n 16)) (String (hex_digit (Nat.modulo n 16)) "").

Definition backslash : ascii := ascii_of_nat 92.
Definition squote : ascii := ascii_of_nat 39.
Definition dquote : ascii := ascii_of_nat 34.
Definition newline : string := String (ascii_of_nat 10) "".

Fixpoint has_char (c : ascii) (s : string) : bool :=
  match s with
  | EmptyString => false
  | String a r => Ascii.eqb a c || has_char c r
  end.

(** One character of a string literal as [repr] prints it inside the quote
    [q].  Exact on ASCII text; a byte above 127 is left as it is, whereas
    Python escapes the code points above 127 that are not printable. *)
Definition repr_char (q c : ascii) : string :=
  let n := nat_of_ascii c in
  if Ascii.eqb c q || Ascii.eqb c backslash then String backslash (String c "")
  else if Nat.eqb n 10 then String backslash "n"
  else if Nat.eqb n 13 then String backslash "r"
  else if Nat.eqb n 9 then String backslash "t"
  else if Nat.ltb n 32 || Nat.eqb n 127 then String backslash ("x" ++ hex2 n)
  else String c "".

Fixpoint repr_chars (q : ascii) (s : string) : string :=
  match s with
  | EmptyString => ""
  | String c r => repr_char q c ++ repr_chars q r
  end.

(** [repr(s)] for a [str]: single quotes, unless the text holds a single quote
    and no double quote. *)
Definition repr_str (s : string) : string :=
  let q := if has_char squote s && negb (has_char dquote s) then dquote else squote in
  String q (repr_chars q s ++ String q "").

Fixpoint py_repr (v : pyval) : string :=
  match v with
  | VNone => "None"
  | VBool b => if b then "True" else "False"
  | VInt z => str_of_Z z
  | VStr s => repr_str s
  | VList items => "[" ++ String.concat ", " (map py_repr items) ++ "]"
  | VDict entries =>
      "{" ++ String.concat ", "
               (map (fun kv => repr_str (fst kv) ++ ": " ++ py_repr (snd kv)) entries)
          ++ "}"
  end.

(** [str(v)], also what an f-string field [{v}] prints. *)
Definition py_str (v : pyval) : string :=
  match v with
  | VStr s => s
  | _ => py_repr v
  end.

(** The values on which [py_repr] and [py_str] are exact: every string in
    them, keys included, is ASCII text. *)
Fixpoint ascii_text (s : string) : bool :=
  match s with
  | EmptyString => true
  | String c r => Nat.ltb (nat_of_ascii c) 128 && ascii_text r
  end.

Fixpoint ascii_value (v : pyval) : bool :=
  match v with
  | VNone | VBool _ | VInt _ => true
  | VStr s => ascii_text s
  | VList items => forallb ascii_value items
  | VDict entries =>
      forallb (fun kv => ascii_text (fst kv) && ascii_value (snd kv)) entries
  end.

(** ** Exceptions *)

Inductive exn : Type :=
| KeyError (key : string)
| TypeError (msg : string)
| AttributeError (msg : string)
| ValueError (msg : string)
| ValidationError (msg : string)
| Exception (msg : string).

(** [str(e)]: a [KeyError] prints the [repr] of its key, the others their
    message. *)
Definition str_exn (e : exn) : string :=
  match e with
  | KeyError key => repr_str key
  | TypeError msg | AttributeError msg | ValueError msg
  | ValidationError msg | Exception msg => msg
  end.

Inductive result (A : Type) : Type :=
| Ok (a : A)
| Raise (e : exn).
Arguments Ok {A} a.
Arguments Raise {A} e.

(** ** Dictionary operations *)

Fixpoint dict_get {V : Type} (k : string) (d : list (string * V)) : option V :=
  match d with
  | [] => None
  | (k', v) :: r => if (k' =? k)%string then Some v else dict_get k r
  end.

(** [d[k] = v]: overwrite in place, or append a new key. *)
Fixpoint dict_set {V : Type} (k : string) (v : V) (d : list (string * V))
  : list (string * V) :=
  match d with
  | [] => [(k, v)]
  | (k', v') :: r =>
      if (k' =? k)%string then (k', v) :: r else (k', v') :: dict_set k v r
  end.

(** [d.get(k, default)] *)
Definition dict_get_default (d : dict) (k : string) (default : pyval) : pyval :=
  match dict_get k d with
  | Some v => v
  | None => default
  end.

(** [d[k]] on a [dict] *)
Definition dict_subscript (d : dict) (k : string) : result pyval :=
  match dict_get k d with
  | Some v => Ok v
  | None => Raise (KeyError k)
  end.

Definition dict_keys (d : dict) : list string := map fst d.

(** ** Built-in operations the handlers apply to values of unknown type *)

(** [min(x, bound)] for an integer literal [bound]: Python keeps the first
    argument unless [bound < x]; among the values of [pyval] the comparison is
    defined between integers ([bool] included) and raises [TypeError] for
    [None], [str], [list] and [dict].  (A float, which Python also compares
    with an integer, is not a value of [pyval].) *)
Definition py_min_int (x : pyval) (bound : Z) : result pyval :=
  match x with
  | VInt z => Ok (if bound <? z then VInt bound else VInt z)
  | VBool b => Ok (if bound <? (if b then 1 else 0) then VInt bound else VBool b)
  | _ =>
      Raise (TypeError ("'<' not supported between instances of 'int' and '"
                          ++ type_name x ++ "'"))
  end.

Definition lower_char (c : ascii) : ascii :=
  let n := nat_of_ascii c in
  if Nat.leb 65 n && Nat.leb n 90 then ascii_of_nat (n + 32) else c.

Fixpoint lower (s : string) : string :=
  match s with
  | EmptyString => EmptyString
  | String c r => String (lower_char c) (lower r)
  end.

(** [v.lower()] *)
Definition py_lower (v : pyval) : result string :=
  match v with
  | VStr s => Ok (lower s)
  | _ => Raise (AttributeError ("'" ++ type_name v ++ "' object has no attribute 'lower'"))
  end.

Fixpoint contains_str (needle s : string) : bool :=
  prefix needle s ||
  match s with
  | EmptyString => false
  | String _ r => contains_str needle r
  end.

(** [needle in container] for a [str] needle: key membership in a [dict],
    element equality in a [list], substring search in a [str]. *)
Definition py_contains (needle : string) (container : pyval) : result bool :=
  match container with
  | VDict entries =>
      Ok (match dict_get needle entries with Some _ => true | None => false end)
  | VList items =>
      Ok (existsb (fun v => match v with VStr s => (s =? needle)%string | _ => false end)
                  items)
  | VStr s => Ok (contains_str needle s)
  | _ => Raise (TypeError ("argument of type '" ++ type_name container
                             ++ "' is not iterable"))
  end.

(** [container[key]] for a [str] key *)
Definition py_subscript (container : pyval) (key : string) : result pyval :=
  match container with
  | VDict entries => dict_subscript entries key
  | VList _ => Raise (TypeError "list indices must be integers or slices, not str")
  | VStr _ => Raise (TypeError "string indices must be integers, not 'str'")
  | _ => Raise (TypeError ("'" ++ type_name container ++ "' object is not subscriptable"))
  end.

(** [container.get(key, default)] *)
Definition py_get (container : pyval) (key : string) (default : pyval) : result pyval :=
  match container with
  | VDict entries => Ok (dict_get_default entries key default)
  | _ => Raise (AttributeError ("'" ++ type_name container
                                  ++ "' object has no attribute 'get'"))
  end.

(** [container.keys()] *)
Definition py_keys (container : pyval) : result (list string) :=
  match container with
  | VDict entries => Ok (dict_keys entries)
  | _ => Raise (AttributeError ("'" ++ type_name container
                                  ++ "' object has no attribute 'keys'"))
  end.

(** ** Requests, responses and results *)

Record Request : Type := mkRequest {
  url : string;
  params : dict;
  headers : list (string * string);
  timeout : Z
}.

Module Response.
Record t : Type := mk {
  status_code : Z;
  text : string;
  json : result pyval
}.
End Response.

(** What [requests.get] does with a request: raise, or answer. *)
Definition Upstream : Type := Request -> result Response.t.

Module TextContent.
Record t : Type := mk {
  type : string;
  text : string
}.
End TextContent.

(** The message of pydantic's validation error for the [text] field; the
    wording is the library's and only its being a message is relied upon. *)
Definition validation_message (v : pyval) : string :=
  "1 validation error for TextContent" ++ newline ++ "text" ++ newline
    ++ "  Input should be a valid string [type=string_type, input_value="
    ++ py_repr v ++ ", input_type=" ++ type_name v ++ "]".

(** [TextContent(type=..., text=...)]: the model validates that [text] is a
    [str]. *)
Definition TextContent_init (type : string) (text : pyval) : result TextContent.t :=
  match text with
  | VStr s => Ok (TextContent.mk type s)
  | _ => Raise (ValidationError (validation_message text))
  end.

(** ** The effect monad: a log of the requests sent, and exceptions *)

Definition M (A : Type) : Type := list Request -> list Request * result A.

Definition ret {A : Type} (a : A) : M A := fun log => (log, Ok a).

Definition bind {A B : Type} (c : M A) (k : A -> M B) : M B :=
  fun log =>
    match c log with
    | (log', Ok a) => k a log'
    | (log', Raise e) => (log', Raise e)
    end.

Definition lift {A : Type} (r : result A) : M A := fun log => (log, r).

Definition raise {A : Type} (e : exn) : M A := lift (Raise e).

(** [try: body except Exception as e: handler(e)] *)
Definition try_except {A : Type} (body : M A) (handler : exn -> M A) : M A :=
  fun log =>
    match body log with
    | (log', Ok a) => (log', Ok a)
    | (log', Raise e) => handler e log'
    end.

(** [await asyncio.to_thread(requests.get, url, params=..., headers=...,
    timeout=...)]: the request is recorded and handed to the upstream. *)
Definition requests_get (net : Upstream) (req : Request) : M Response.t :=
  fun log => ((log ++ [req])%list, net req).

Declare Scope monad_scope.
Delimit Scope monad_scope with monad.
Notation "x <- c ;; k" := (bind c (fun x => k))
  (at level 61, c at next level, right associativity) : monad_scope.
Open Scope monad_scope.

(** Running a handler from an empty log. *)
Definition run {A : Type} (m : M A) : list Request * result A := m [].
Definition sent {A : Type} (m : M A) : list Request := fst (run m).
Definition outcome {A : Type} (m : M A) : result A := snd (run m).

(** ** The server *)

Record SemanticScholarServer : Type := mkServer {
  api_key : option string;
  base_url : string
}.

Definition __init__ (api_key : option string) : SemanticScholarServer :=
  mkServer api_key "https://api.semanticscholar.org/graph/v1".

(** [_get_headers]: [if self.api_key] is false for [None] and for the empty
    string. *)
Definition _get_headers (self : SemanticScholarServer) : list (string * string) :=
  let headers := [("Accept", "application/json")] in
  match api_key self with
  | Some key =>
      if negb (key =? "")%string then dict_set "x-api-key" key headers else headers
  | None => headers
  end.

Definition search_paper_default_fields : string :=
  "paperId,title,abstract,authors,year,citationCount".

Definition get_paper_default_fields : string :=
  "paperId,title,abstract,authors,year,citationCount,referenceCount,fieldsOfStudy,publicationTypes,publicationDate,journal,openAccessPdf".

Definition get_authors_default_fields : string :=
  "authorId,name,affiliations,citationCount,hIndex".

(** The keys [_handle_search_paper] forwards when present. *)
Definition queryParams_list : list string :=
  ["publicationTypes"; "minCitationCount"; "publicationDateOrYear"; "year";
   "venue"; "fieldsOfStudy"].

(** One turn of the loop: [if queryParams in arguments:
    params[queryParams] = arguments[queryParams]]. *)
Definition forward_param (arguments params : dict) (queryParams : string) : dict :=
  match dict_get queryParams arguments with
  | Some v => dict_set queryParams v params
  | None => params
  end.

(** [TextContent(type="text", text=...)] wrapped in a one-element list. *)
Definition text_result (text : pyval) : M (list TextContent.t) :=
  tc <- lift (TextContent_init "text" text) ;;
  ret [tc].

(** [f"Error: API returned status {response.status_code}: {response.text}"] *)
Definition api_error_text (response : Response.t) : string :=
  "Error: API returned status " ++ str_of_Z (Response.status_code response)
    ++ ": " ++ Response.text response.

(** The guarded block of [_handle_search_paper]. *)
Definition search_paper_try (self : SemanticScholarServer) (net : Upstream)
    (arguments : dict) : M (list TextContent.t) :=
  query <- lift (dict_subscript arguments "query") ;;
  limit <- lift (py_min_int (dict_get_default arguments "limit" (VInt 10)) 100) ;;
  let params :=
    [("query", query);
     ("fields", dict_get_default arguments "fields" (VStr search_paper_default_fields));
     ("offset", dict_get_default arguments "offset" (VInt 0));
     ("limit", limit)] in
  let params := fold_left (forward_param arguments) queryParams_list params in
  let params :=
    if truthy (dict_get_default arguments "openAccessPdf" VNone)
    then dict_set "openAccessPdf" (VStr "") params
    else params in
  response <- requests_get net
                (mkRequest (base_url self ++ "/paper/search") params
                           (_get_headers self) 30) ;;
  if negb (Response.status_code response =? 200)
  then text_result (VStr (api_error_text response))
  else (res <- lift (Response.json response) ;;
        text_result (VStr (py_str res))).

Definition _handle_search_paper (self : SemanticScholarServer) (net : Upstream)
    (arguments : dict) : M (list TextContent.t) :=
  try_except (search_paper_try self net arguments)
    (fun e => text_result (VStr ("Error searching papers: " ++ str_exn e))).

(** The guarded block of [_handle_get_paper]. *)
Definition get_paper_try (self : SemanticScholarServer) (net : Upstream)
    (arguments : dict) : M (list TextContent.t) :=
  paper_id <- lift (dict_subscript arguments "paper_id") ;;
  let params :=
    [("fields", dict_get_default arguments "fields" (VStr get_paper_default_fields))] in
  response <- requests_get net
                (mkRequest (base_url self ++ "/paper/" ++ py_str paper_id) params
                           (_get_headers self) 30) ;;
  if Response.status_code response =? 404
  then text_result (VStr ("Paper not found: " ++ py_str paper_id))
  else if negb (Response.status_code response =? 200)
  then text_result (VStr (api_error_text response))
  else (res <- lift (Response.json response) ;;
        text_result (VStr (py_str res))).

Definition _handle_get_paper (self : SemanticScholarServer) (net : Upstream)
    (arguments : dict) : M (list TextContent.t) :=
  try_except (get_paper_try self net arguments)
    (fun e => text_result (VStr ("Error getting paper details: " ++ str_exn e))).

(** The guarded block of [_handle_get_authors].  On success the parsed body
    itself, not its [str], is given to [TextContent]. *)
Definition get_authors_try (self : SemanticScholarServer) (net : Upstream)
    (arguments : dict) : M (list TextContent.t) :=
  paper_id <- lift (dict_subscript arguments "paper_id") ;;
  limit <- lift (py_min_int (dict_get_default arguments "limit" (VInt 100)) 1000) ;;
  let params :=
    [("fields", dict_get_default arguments "fields" (VStr get_authors_default_fields));
     ("offset", dict_get_default arguments "offset" (VInt 0));
     ("limit", limit)] in
  response <- requests_get net
                (mkRequest (base_url self ++ "/paper/" ++ py_str paper_id ++ "/authors")
                           params (_get_headers self) 30) ;;
  if Response.status_code response =? 404
  then text_result (VStr ("Paper not found: " ++ py_str paper_id))
  else if negb (Response.status_code response =? 200)
  then text_result (VStr (api_error_text response))
  else (res <- lift (Response.json response) ;;
        text_result res).

Definition _handle_get_authors (self : SemanticScholarServer) (net : Upstream)
    (arguments : dict) : M (list TextContent.t) :=
  try_except (get_authors_try self net arguments)
    (fun e => text_result (VStr ("Error getting authors: " ++ str_exn e))).

Definition add_abstract (citation abstract : pyval) (citation_format : string) : string :=
  "TODO".

(** The part of [_handle_get_citation] that follows [data = response.json()]. *)
Definition citation_of_data (data : pyval) (citation_format : string)
  : M (list TextContent.t) :=
  has_styles <- lift (py_contains "citationStyles" data) ;;
  if negb has_styles
  then text_result (VStr "No citation styles available for this paper.")
  else (
    styles <- lift (py_subscript data "citationStyles") ;;
    has_format <- lift (py_contains citation_format styles) ;;
    if negb has_format
    then (
      styles <- lift (py_subscript data "citationStyles") ;;
      keys <- lift (py_keys styles) ;;
      text_result
        (VStr ("Citation format '" ++ citation_format
                 ++ "' not available. Available formats for this paper: "
                 ++ String.concat ", " keys)))
    else (
      styles <- lift (py_subscript data "citationStyles") ;;
      citation <- lift (py_subscript styles citation_format) ;;
      abstract <- lift (py_get data "abstract" (VStr "")) ;;
      let result_text := add_abstract citation abstract citation_format in
      text_result (VStr result_text))).

(** The guarded block of [_handle_get_citation]. *)
Definition get_citation_try (self : SemanticScholarServer) (net : Upstream)
    (arguments : dict) : M (list TextContent.t) :=
  paper_id <- lift (dict_subscript arguments "paper_id") ;;
  citation_format <- lift (py_lower (dict_get_default arguments "format" (VStr "bibtex"))) ;;
  response <- requests_get net
                (mkRequest (base_url self ++ "/paper/" ++ py_str paper_id)
                           [("fields", VStr "citationStyles, abstract")]
                           (_get_headers self) 30) ;;
  if Response.status_code response =? 404
  then text_result (VStr ("Paper not found: " ++ py_str paper_id))
  else if negb (Response.status_code response =? 200)
  then text_result (VStr (api_error_text response))
  else (data <- lift (Response.json response) ;;
        citation_of_data data citation_format).

Definition _handle_get_citation (self : SemanticScholarServer) (net : Upstream)
    (arguments : dict) : M (list TextContent.t) :=
  try_except (get_citation_try self net arguments)
    (fun e => text_result (VStr ("Error generating citation: " ++ str_exn e))).

(** [handle_call_tool]: dispatch on the tool name. *)
Definition handle_call_tool (self : SemanticScholarServer) (net : Upstream)
    (name : string) (arguments : dict) : M (list TextContent.t) :=
  if (name =? "search_paper")%string then _handle_search_paper self net arguments
  else if (name =? "get_paper")%string then _handle_get_paper self net arguments
  else if (name =? "get_authors")%string then _handle_get_authors self net arguments
  else if (name =? "get_citation")%string then _handle_get_citation self net arguments
  else raise (ValueError ("Unknown tool: " ++ name)).

(** ** Resources *)

Definition _get_paper_fields_documentation : string :=
  "# Paper Fields Reference

## Basic Fields
- `paperId` - Unique paper identifier
- `title` - Paper title
- `abstract` - Paper abstract
- `year` - Publication year
- `publicationDate` - Full publication date (YYYY-MM-DD)

## Author Information
- `authors` - List of authors (returns authorId and name by default)
- `authors.authorId` - Author's unique identifier
- `authors.name` - Author's name
- `authors.affiliations` - Author's institutional affiliations
- `authors.citationCount` - Author's total citation count
- `authors.hIndex` - Author's h-index

## Citation and Reference Data
- `citationCount` - Number of times this paper has been cited
- `referenceCount` - Number of references in this paper
- `citations` - List of papers that cite this paper
- `references` - List of papers referenced by this paper

## Publication Details
- `journal` - Journal information (name, volume, pages, etc.)
- `venue` - Publication venue
- `publicationTypes` - Types of publication (e.g., JournalArticle, Conference)
- `fieldsOfStudy` - Academic fields (e.g., Computer Science, Medicine)
- `s2FieldsOfStudy` - Semantic Scholar's field classifications

## Additional Metadata
- `doi` - Digital Object Identifier
- `arxivId` - ArXiv identifier
- `url` - Paper URL
- `openAccessPdf` - Open access PDF information
- `embedding` - Paper embedding vectors (for similarity analysis)
".

Definition _get_author_fields_documentation : string :=
  "# Author Fields Reference

## Available Fields
- `authorId` - Unique author identifier
- `name` - Author's name
- `affiliations` - Institutional affiliations (array)
- `citationCount` - Total citation count across all papers
- `hIndex` - h-index metric
- `paperCount` - Number of papers published
- `url` - Author's Semantic Scholar profile URL
".

(** The value [handle_read_resource] receives.  The code annotates it [str],
    but the handler registered with [@self.server.read_resource()] (under a
    [# type: ignore]) is called by the mcp library with a pydantic [AnyUrl].
    An [AnyUrl] is modelled by the text [str()] prints for it. *)
Inductive uri_value : Type :=
| UriStr (s : string)
| AnyUrl (text : string).

(** [uri == literal] for a [str] literal: string equality on a [str]; on an
    [AnyUrl] it is [False], since its [__eq__] asks for an operand of its own
    class and [str] does not know the class either. *)
Definition uri_eq_str (uri : uri_value) (literal : string) : bool :=
  match uri with
  | UriStr s => (s =? literal)%string
  | AnyUrl _ => false
  end.

(** [str(uri)], as the f-string prints it. *)
Definition str_uri (uri : uri_value) : string :=
  match uri with
  | UriStr s => s
  | AnyUrl text => text
  end.

(** [handle_read_resource]: the two known URIs, or [ValueError]. *)
Definition handle_read_resource (uri : uri_value) : result string :=
  if uri_eq_str uri "semantic-scholar://fields/paper"
  then Ok _get_paper_fields_documentation
  else if uri_eq_str uri "semantic-scholar://fields/author"
  then Ok _get_author_fields_documentation
  else Raise (ValueError ("Unknown resource: " ++ str_uri uri)).

(** Reading a resource as the protocol host does: the library hands the
    requested URI to the registered handler as an [AnyUrl]. *)
Definition read_resource (requested : string) : result string :=
  handle_read_resource (AnyUrl requested).

(** [handle_list_resources]: the two resources the server advertises. *)
Record Resource : Type := mkResource {
  uri : string;
  name : string;
  description : string;
  mimeType : string
}.

Definition handle_list_resources : list Resource :=
  [mkResource "semantic-scholar://fields/paper" "Paper Fields Reference"
     "Complete list of available fields for paper-related tools" "text/markdown";
   mkResource "semantic-scholar://fields/author" "Author Fields Reference"
     "Complete list of available fields for author-related tools" "text/markdown"].

(** The names of the four tools [handle_list_tools] declares, in its order. *)
Definition tool_names : list string :=
  ["search_paper"; "get_paper"; "get_authors"; "get_citation"].

Definition resource_uris : list string := map uri handle_list_resources.

(** ** Vocabulary of the statements *)

(** A text result as every handler builds it. *)
Definition text_content (s : string) : TextContent.t := TextContent.mk "text" s.

(** The upstream answered a request of the call with [response]. *)
Definition answered {A : Type} (m : M A) (net : Upstream) (response : Response.t) : Prop :=
  exists req, In req (sent m) /\ net req = Ok response.

(** A computation that sends nothing: it leaves the log alone and its result
    does not depend on it. *)
Definition quiet {A : Type} (m : M A) : Prop :=
  forall log, m log = (log, outcome m).

(** What the [except] clause of a handler returns for the label [label]. *)
Definition error_result (label : string) (e : exn) : result (list TextContent.t) :=
  Ok [text_content (label ++ str_exn e)].

(** The requests the handlers build, named for the statements below. *)
Definition search_paper_params (arguments : dict) (query limit : pyval) : dict :=
  let params :=
    [("query", query);
     ("fields", dict_get_default arguments "fields" (VStr search_paper_default_fields));
     ("offset", dict_get_default arguments "offset" (VInt 0));
     ("limit", limit)] in
  let params := fold_left (forward_param arguments) queryParams_list params in
  if truthy (dict_get_default arguments "openAccessPdf" VNone)
  then dict_set "openAccessPdf" (VStr "") params
  else params.

Definition search_paper_request (self : SemanticScholarServer) (arguments : dict)
    (query limit : pyval) : Request :=
  mkRequest (base_url self ++ "/paper/search")
            (search_paper_params arguments query limit) (_get_headers self) 30.

Definition get_paper_request (self : SemanticScholarServer) (arguments : dict)
    (paper_id : pyval) : Request :=
  mkRequest (base_url self ++ "/paper/" ++ py_str paper_id)
            [("fields", dict_get_default arguments "fields" (VStr get_paper_default_fields))]
            (_get_headers self) 30.

Definition get_authors_request (self : SemanticScholarServer) (arguments : dict)
    (paper_id limit : pyval) : Request :=
  mkRequest (base_url self ++ "/paper/" ++ py_str paper_id ++ "/authors")
            [("fields", dict_get_default arguments "fields" (VStr get_authors_default_fields));
             ("offset", dict_get_default arguments "offset" (VInt 0));
             ("limit", limit)]
            (_get_headers self) 30.

Definition get_citation_request (self : SemanticScholarServer) (paper_id : pyval)
  : Request :=
  mkRequest (base_url self ++ "/paper/" ++ py_str paper_id)
            [("fields", VStr "citationStyles, abstract")] (_get_headers self) 30.

(** The status-code ladder shared by the three handlers keyed by a paper id,
    with [on_success] for what each does with a 200 answer. *)
Definition paper_response (label : string) (paper_id : pyval)
    (on_success : Response.t -> result (list TextContent.t))
    (answer : result Response.t) : result (list TextContent.t) :=
  match answer with
  | Raise e => error_result label e
  | Ok response =>
      if Response.status_code response =? 404
      then Ok [text_content ("Paper not found: " ++ py_str paper_id)]
      else if negb (Response.status_code response =? 200)
      then Ok [text_content (api_error_text response)]
      else match on_success response with
           | Ok l => Ok l
           | Raise e => error_result label e
           end
  end.

(** ** Sample servers and upstreams *)

Definition server_without_api_key : SemanticScholarServer := __init__ None.

Definition server_with_api_key : SemanticScholarServer := __init__ (Some "test-api-key").

(** An upstream that answers every request with the same response. *)
Definition answer_with (status : Z) (text : string) (body : result pyval) : Upstream :=
  fun _ => Ok (Response.mk status text body).

(** An upstream on which every request fails in transport. *)
Definition network_error : Upstream := fun _ => Raise (Exception "Network error").

(** ** Tool descriptors *)

Module Tool.
Record t : Type := mk {
  name : string;
  description : string;
  inputSchema : pyval
}.
End Tool.

(** [handle_list_tools]: the four descriptors, their schemas as JSON values. *)
Definition handle_list_tools : list Tool.t :=
  [Tool.mk "search_paper"
     "Search for papers using Semantic Scholar. Use 'fields' parameter to customize returned data"
     (VDict
       [("type", VStr "object");
        ("properties", VDict
          [("query", VDict
             [("type", VStr "string");
              ("description", VStr "A plain-text search query string.

- No special query syntax is supported
- Hyphenated query terms yield no matches (replace it with space to find matches).")]);
           ("fields", VDict
             [("type", VStr "string");
              ("description", VStr "A comma-separated list of the fields to be returned. The paperId field is always returned. See the resource 'semantic-scholar://fields/paper' for available fields.

Examples:
- `title,url`
- `title,embedding.specter_v2`
- `title,authors,citations.title,citations.abstract`
                                ");
              ("default", VStr search_paper_default_fields)]);
           ("publicationTypes", VDict
             [("type", VStr "string");
              ("description", VStr "A comma-separated list of publication types to include.

Available types: Review, JournalArticle, CaseReort, ClinicalTrial, Conference, Dataset, Editorial, LettersAndComments, MetaAnalysis, News, Study, Book, BookSection
Example: `Review,JournalArticle` will return papers with publication types Review and/or JournalArticle")]);
           ("openAccessPdf", VDict
             [("type", VStr "boolean");
              ("description", VStr "Restricts results to only include papers with a public PDF.");
              ("default", VBool false)]);
           ("minCitationCount", VDict
             [("type", VStr "integer");
              ("description", VStr "Restricts results to only include papers with the minimum number of citations.");
              ("default", VInt 0)]);
           ("publicationDateOrYear", VDict
             [("type", VStr "string");
              ("description", VStr "Restricts results to the given range of publication dates or years (inclusive). Accepts the format `<startDate>:<endDate>` with each date in `YYYY-MM-DD` format.
Each term is optional, allowing for specific dates, fixed ranges, or open-ended ranges. In addition, prefixes are suported as a shorthand, e.g. `2020-06` matches all dates in June 2020.
Specific dates are not known for all papers, so some records returned with this filter will have a `null` value for publicationDate. `year`, however, will always be present. For records where a specific publication date is not known, they will be treated as if published on January 1st of their publication year.

Examples:

- `2019-03-05` on March 3rd, 2019
- `2019-03` during March 2019
- `2019` during 2019
- `2016-03-05:2020-06-06` as early as March 5th, 2016 or as late as June 6th, 2020
- `1981-08-25:` on or after August 25th, 1981
- `:2015-01` before or on January 31st, 2015
- `2015:2020` between January 1st, 2015 and December 31st, 2020
")]);
           ("year", VDict
             [("type", VStr "string");
              ("description", VStr "Restricts results to the given publication year or range of years (inclusive).

Examples:

- `2019` in 2019
- `2016-2020` as early as 2016 or as late as 2020
- `2010-` during or after 2010
- `-2015` before or during 2015")]);
           ("venue", VDict
             [("type", VStr "string");
              ("description", VStr "Restricts results to papers published in the given venues, formatted as a comma-separated list.

Input could also be an ISO4 abbreviation. Examples include:
- Nature
- New England Journal of Medicine
- Radiology
- N. Engl. J. Med.

Example: `Nature,Radiology` will return papers from venues Nature and/or Radiology.")]);
           ("fieldsOfStudy", VDict
             [("type", VStr "string");
              ("description", VStr "A Comma-separated list of fields of study to include.

Available fields of study: Computer Science,Medicine,Chemistry,Biology,Materials Science,Physics,Geology,Psychology,Art,History,Geography,Sociology,Business,Political Science,Economics,Philosophy,Mathematics,Engineering,Environmental Science,Agricultural and Food Sciences,Education,Law,Linguistics
Example: `Physics,Mathematics` will return papers with either Physics or Mathematics in their list of fields-of-study.")]);
           ("offset", VDict
             [("type", VStr "integer");
              ("description", VStr "Starting position in the list of results");
              ("default", VInt 0)]);
           ("limit", VDict
             [("type", VStr "integer");
              ("description", VStr "Maximum number of results to return (max: 100)");
              ("default", VInt 10)])]);
        ("required", VList [VStr "query"])]);
   Tool.mk "get_paper"
     "Get detailed information about a specific paper. Use 'fields' parameter to customize returned data."
     (VDict
       [("type", VStr "object");
        ("properties", VDict
          [("paper_id", VDict
             [("type", VStr "string");
              ("description", VStr "The following types of IDs are supported:
- `<sha>` - a Semantic Scholar ID, e.g. `649def34f8be52c8b66281af98ae884c09aef38b`
- `CorpusId:<id>` - a Semantic Scholar numerical ID, e.g. `CorpusId:215416146`
- `DOI:<doi>` - a Digital Object Identifier, e.g. `DOI:10.18653/v1/N18-3011`
- `ARXIV:<id>` - arXiv.rg, e.g. `ARXIV:2106.15928`
- `MAG:<id>` - Microsoft Academic Graph, e.g. `MAG:112218234`
- `ACL:<id>` - Association for Computational Linguistics, e.g. `ACL:W12-3903`
- `PMID:<id>` - PubMed/Medline, e.g. `PMID:19872477`
- `PMCID:<id>` - PubMed Central, e.g. `PMCID:2323736`
- `URL:<url>` - URL from one of the sites listed below, e.g. `URL:https://arxiv.org/abs/2106.15928v1`

URLs are recognized from the following sites:
- semanticscholar.org
- arxiv.org
- aclweb.org
- acm.org
- biorxiv.org")]);
           ("fields", VDict
             [("type", VStr "string");
              ("description", VStr "A comma-separated list of the fields to be returned. The paperId field is always returned. See the resource 'semantic-scholar://fields/paper' for available fields.

Examples:
- `title,url`
- `title,embedding.specter_v2`
- `title,authors,citations.title,citations.abstract`
                                ");
              ("default", VStr get_paper_default_fields)])]);
        ("required", VList [VStr "paper_id"])]);
   Tool.mk "get_authors"
     "Get authors information for a specific paper. Use 'fields' parameter to customize author data returned."
     (VDict
       [("type", VStr "object");
        ("properties", VDict
          [("paper_id", VDict
             [("type", VStr "string");
              ("description", VStr "The following types of IDs are supported:
- `<sha>` - a Semantic Scholar ID, e.g. `649def34f8be52c8b66281af98ae884c09aef38b`
- `CorpusId:<id>` - a Semantic Scholar numerical ID, e.g. `CorpusId:215416146`
- `DOI:<doi>` - a Digital Object Identifier, e.g. `DOI:10.18653/v1/N18-3011`
- `ARXIV:<id>` - arXiv.rg, e.g. `ARXIV:2106.15928`
- `MAG:<id>` - Microsoft Academic Graph, e.g. `MAG:112218234`
- `ACL:<id>` - Association for Computational Linguistics, e.g. `ACL:W12-3903`
- `PMID:<id>` - PubMed/Medline, e.g. `PMID:19872477`
- `PMCID:<id>` - PubMed Central, e.g. `PMCID:2323736`
- `URL:<url>` - URL from one of the sites listed below, e.g. `URL:https://arxiv.org/abs/2106.15928v1`

URLs are recognized from the following sites:
- semanticscholar.org
- arxiv.org
- aclweb.org
- acm.org
- biorxiv.org")]);
           ("fields", VDict
             [("type", VStr "string");
              ("description", VStr "A comma-separated list of the fields to be returned. The authorId field is always returned. See the resource 'semantic-scholar://fields/author' for available fields.

Examples:
- `name,affiliations,papers`
- `url,papers.year,papers.authors`
                                ");
              ("default", VStr "authorId,name,affiliations,citationCount,hIndex")]);
           ("offset", VDict
             [("type", VStr "integer");
              ("description", VStr "Used for pagination. When returning a list of results, start with the element at this position in the list.");
              ("default", VInt 0)]);
           ("limit", VDict
             [("type", VStr "integer");
              ("description", VStr "The maximum number of results to return. Maximum is 1000.");
              ("default", VInt 100)])]);
        ("required", VList [VStr "paper_id"])]);
   Tool.mk "get_citation"
     "Get citation information in various formats."
     (VDict
       [("type", VStr "object");
        ("properties", VDict
          [("paper_id", VDict
             [("type", VStr "string");
              ("description", VStr "The following types of IDs are supported:
- `<sha>` - a Semantic Scholar ID, e.g. `649def34f8be52c8b66281af98ae884c09aef38b`
- `CorpusId:<id>` - a Semantic Scholar numerical ID, e.g. `CorpusId:215416146`
- `DOI:<doi>` - a Digital Object Identifier, e.g. `DOI:10.18653/v1/N18-3011`
- `ARXIV:<id>` - arXiv.rg, e.g. `ARXIV:2106.15928`
- `MAG:<id>` - Microsoft Academic Graph, e.g. `MAG:112218234`
- `ACL:<id>` - Association for Computational Linguistics, e.g. `ACL:W12-3903`
- `PMID:<id>` - PubMed/Medline, e.g. `PMID:19872477`
- `PMCID:<id>` - PubMed Central, e.g. `PMCID:2323736`
- `URL:<url>` - URL from one of the sites listed below, e.g. `URL:https://arxiv.org/abs/2106.15928v1`

URLs are recognized from the following sites:
- semanticscholar.org
- arxiv.org
- aclweb.org
- acm.org
- biorxiv.org")]);
           ("format", VDict
             [("type", VStr "string");
              ("description", VStr "Citation format: 'bibtex', 'apa', 'mla', or 'chicago'");
              ("default", VStr "bibtex")])]);
        ("required", VList [VStr "paper_id"])])].

(** Reading a schema: [schema["properties"][p]], its [default], and the list
    under [required]. *)
Definition pyval_get (v : pyval) (k : string) : option pyval :=
  match v with
  | VDict entries => dict_get k entries
  | _ => None
  end.

Definition schema_property (schema : pyval) (p : string) : option pyval :=
  match pyval_get schema "properties" with
  | Some properties => pyval_get properties p
  | None => None
  end.

Definition schema_default (schema : pyval) (p : string) : option pyval :=
  match schema_property schema p with
  | Some info => pyval_get info "default"
  | None => None
  end.

(** The properties of a schema that carry a [default], with that default. *)
Definition declared_defaults (schema : pyval) : list (string * pyval) :=
  match pyval_get schema "properties" with
  | Some (VDict properties) =>
      flat_map (fun entry =>
                  match pyval_get (snd entry) "default" with
                  | Some d => [(fst entry, d)]
                  | None => []
                  end)
               properties
  | _ => []
  end.

Definition schema_required (schema : pyval) : list pyval :=
  match pyval_get schema "required" with
  | Some (VList names) => names
  | _ => []
  end.

(** A value has the JSON type a schema names. *)
Definition has_json_type (ty : string) (v : pyval) : bool :=
  match v with
  | VStr _ => (ty =? "string")%string
  | VInt _ => (ty =? "integer")%string
  | VBool _ => (ty =? "boolean")%string
  | _ => false
  end.

(** Arguments that validate against a schema: every required property is
    present, and every declared property that is present has its declared
    type. *)
Definition conforms (schema : pyval) (arguments : dict) : Prop :=
  (forall r, In (VStr r) (schema_required schema) -> dict_get r arguments <> None) /\
  (forall p info ty v,
     schema_property schema p = Some info ->
     pyval_get info "type" = Some (VStr ty) ->
     dict_get p arguments = Some v ->
     has_json_type ty v = true).

(** The label each handler puts in front of a caught exception. *)
Definition error_label (name : string) : string :=
  if (name =? "search_paper")%string then "Error searching papers: "
  else if (name =? "get_paper")%string then "Error getting paper details: "
  else if (name =? "get_authors")%string then "Error getting authors: "
  else "Error generating citation: ".

(** The keys a [search_paper] request can carry. *)
Definition search_paper_param_names : list string :=
  (["query"; "fields"; "offset"; "limit"] ++ queryParams_list ++ ["openAccessPdf"])%list.

(** ** The command line: the [tools] commands of [cli.py]

    Option parsing is click's; a command is modelled from its parsed
    parameters on.  A command returns the texts it passes to [click.echo],
    one per call, in order (a text may itself span several lines). *)

Module cli.

(** [ctx.obj], a dictionary whose values are a string or [None]. *)
Definition context : Type := list (string * option string).

(** [tools]: [ctx.ensure_object(dict)] then [ctx.obj["api_key"] = api_key]. *)
Definition tools (api_key : option string) : context :=
  dict_set "api_key" api_key [].

(** [ctx.obj.get(k)] *)
Definition obj_get (obj : context) (k : string) : option string :=
  match dict_get k obj with
  | Some v => v
  | None => None
  end.

Definition _get_server_instance (api_key : option string) : SemanticScholarServer :=
  __init__ api_key.

(** An optional string parameter as a Python value. *)
Definition of_option (o : option string) : pyval :=
  match o with
  | Some s => VStr s
  | None => VNone
  end.

(** [for result in results: click.echo(result.text)] *)
Definition echo_results (results : list TextContent.t) : list string :=
  map TextContent.text results.

Definition search_paper (net : Upstream) (obj : context) (query fields : string)
    (limit offset : Z) (year fields_of_study : option string)
    (open_access_pdf : bool) : M (list string) :=
  let api_key := obj_get obj "api_key" in
  let server := _get_server_instance api_key in
  let args : dict :=
    [("query", VStr query); ("fields", VStr fields); ("limit", VInt limit);
     ("offset", VInt offset)] in
  let args := if truthy (of_option year)
              then dict_set "year" (of_option year) args else args in
  let args := if truthy (of_option fields_of_study)
              then dict_set "fieldsOfStudy" (of_option fields_of_study) args else args in
  let args := if open_access_pdf
              then dict_set "openAccessPdf" (VBool true) args else args in
  results <- _handle_search_paper server net args ;;
  ret (echo_results results).

Definition get_paper (net : Upstream) (obj : context) (paper_id fields : string)
  : M (list string) :=
  let api_key := obj_get obj "api_key" in
  let server := _get_server_instance api_key in
  results <- _handle_get_paper server net
               [("paper_id", VStr paper_id); ("fields", VStr fields)] ;;
  ret (echo_results results).

Definition get_authors (net : Upstream) (obj : context) (paper_id fields : string)
    (limit offset : Z) : M (list string) :=
  let api_key := obj_get obj "api_key" in
  let server := _get_server_instance api_key in
  results <- _handle_get_authors server net
               [("paper_id", VStr paper_id); ("fields", VStr fields);
                ("limit", VInt limit); ("offset", VInt offset)] ;;
  ret (echo_results results).

Definition get_citation (net : Upstream) (obj : context)
    (paper_id citation_format : string) : M (list string) :=
  let api_key := obj_get obj "api_key" in
  let server := _get_server_instance api_key in
  results <- _handle_get_citation server net
               [("paper_id", VStr paper_id); ("format", VStr citation_format)] ;;
  ret (echo_results results).

(** The values click accepts for [--format] of [get_citation]. *)
Definition citation_format_choices : list string := ["bibtex"; "apa"; "mla"; "chicago"].

End cli.

(** An optional command-line string as a query parameter: sent when given and
    not empty. *)
Definition optional_param (k : string) (o : option string) : dict :=
  match o with
  | Some s => if (s =? "")%string then [] else [(k, VStr s)]
  | None => []
  end.

(** What a command prints, from the run of the handler it wraps. *)
Definition printed (r : list Request * result (list TextContent.t))
  : list Request * result (list string) :=
  (fst r,
   match snd r with
   | Ok results => Ok (cli.echo_results results)
   | Raise e => Raise e
   end).

(** * Properties *)

(** ** Strings and dictionaries *)

Lemma prefix_app (p s : string) : prefix p (p ++ s) = true.
Proof.
  induction p as [|c p IH]; simpl.
  - now destruct s.
  - destruct (ascii_dec c c) as [_|N]; [exact IH | now elim N].
Qed.

Lemma dict_get_set_same {V : Type} (k : string) (v : V) (d : list (string * V)) :
  dict_get k (dict_set k v d) = Some v.
Proof.
  induction d as [|[k' v'] d IH]; simpl.
  - now rewrite String.eqb_refl.
  - destruct (k' =? k)%string eqn:E; simpl; rewrite E; [reflexivity | exact IH].
Qed.

Lemma dict_get_set_other {V : Type} (k k' : string) (v : V) (d : list (string * V)) :
  k' <> k -> dict_get k (dict_set k' v d) = dict_get k d.
Proof.
  intros Hne. induction d as [|[k0 v0] d IH]; simpl.
  - apply String.eqb_neq in Hne. now rewrite Hne.
  - destruct (k0 =? k')%string eqn:E; simpl.
    + apply String.eqb_eq in E. subst k0.
      apply String.eqb_neq in Hne. now rewrite Hne.
    + now rewrite IH.
Qed.

Lemma forward_params_other (arguments : dict) (k : string) (keys : list string) :
  ~ In k keys ->
  forall params,
    dict_get k (fold_left (forward_param arguments) keys params) = dict_get k params.
Proof.
  induction keys as [|k' keys IH]; intros Hnot params; simpl; [reflexivity|].
  rewrite IH by (intro H; apply Hnot; now right).
  unfold forward_param. destruct (dict_get k' arguments); [|reflexivity].
  apply dict_get_set_other. intro E. apply Hnot. now left.
Qed.

(** ** The handlers, step by step *)


Lemma citation_of_data_quiet (data : pyval) (citation_format : string) :
  quiet (citation_of_data data citation_format).
Proof.
  intro log. unfold citation_of_data, outcome, run, bind, lift.
  destruct (py_contains "citationStyles" data) as [[|]|]; try reflexivity.
  cbv beta iota. simpl negb. cbv iota.
  destruct (py_subscript data "citationStyles") as [styles|]; try reflexivity.
  destruct (py_contains citation_format styles) as [[|]|]; try reflexivity.
  - simpl negb. cbv iota. destruct (py_subscript styles citation_format); try reflexivity.
    destruct (py_get data "abstract" (VStr "")); reflexivity.
  - simpl negb. cbv iota. destruct (py_keys styles); reflexivity.
Qed.

Lemma run_get_paper (self : SemanticScholarServer) (net : Upstream) (arguments : dict) :
  run (_handle_get_paper self net arguments) =
  match dict_get "paper_id" arguments with
  | None => ([], error_result "Error getting paper details: " (KeyError "paper_id"))
  | Some paper_id =>
      let req := get_paper_request self arguments paper_id in
      ([req],
       paper_response "Error getting paper details: " paper_id
         (fun response =>
            match Response.json response with
            | Ok res => Ok [text_content (py_str res)]
            | Raise e => Raise e
            end)
         (net req))
  end.
Proof.
  unfold run, _handle_get_paper, get_paper_try, try_except, bind, lift, requests_get,
    dict_subscript, paper_response.
  destruct (dict_get "paper_id" arguments) as [paper_id|]; [|reflexivity].
  cbv beta iota zeta. fold (get_paper_request self arguments paper_id).
  destruct (net _) as [response|e]; [|reflexivity].
  destruct (Response.status_code response =? 404); [reflexivity|].
  destruct (Response.status_code response =? 200); [|reflexivity].
  simpl negb. cbv iota.
  destruct (Response.json response); reflexivity.
Qed.

Lemma run_search_paper (self : SemanticScholarServer) (net : Upstream) (arguments : dict) :
  run (_handle_search_paper self net arguments) =
  match dict_get "query" arguments with
  | None => ([], error_result "Error searching papers: " (KeyError "query"))
  | Some query =>
      match py_min_int (dict_get_default arguments "limit" (VInt 10)) 100 with
      | Raise e => ([], error_result "Error searching papers: " e)
      | Ok limit =>
          let req := search_paper_request self arguments query limit in
          ([req],
           match net req with
           | Raise e => error_result "Error searching papers: " e
           | Ok response =>
               if negb (Response.status_code response =? 200)
               then Ok [text_content (api_error_text response)]
               else match Response.json response with
                    | Ok res => Ok [text_content (py_str res)]
                    | Raise e => error_result "Error searching papers: " e
                    end
           end)
      end
  end.
Proof.
  unfold run, _handle_search_paper, search_paper_try, try_except, bind, lift,
    requests_get, dict_subscript.
  destruct (dict_get "query" arguments) as [query|]; [|reflexivity].
  destruct (py_min_int _ 100) as [limit|e]; [|reflexivity].
  cbv beta iota zeta. fold (search_paper_params arguments query limit).
  fold (search_paper_request self arguments query limit).
  destruct (net _) as [response|e]; [|reflexivity].
  destruct (Response.status_code response =? 200); simpl negb; cbv iota; [|reflexivity].
  destruct (Response.json response); reflexivity.
Qed.

Lemma run_get_authors (self : SemanticScholarServer) (net : Upstream) (arguments : dict) :
  run (_handle_get_authors self net arguments) =
  match dict_get "paper_id" arguments with
  | None => ([], error_result "Error getting authors: " (KeyError "paper_id"))
  | Some paper_id =>
      match py_min_int (dict_get_default arguments "limit" (VInt 100)) 1000 with
      | Raise e => ([], error_result "Error getting authors: " e)
      | Ok limit =>
          let req := get_authors_request self arguments paper_id limit in
          ([req],
           paper_response "Error getting authors: " paper_id
             (fun response =>
                match Response.json response with
                | Ok res =>
                    match TextContent_init "text" res with
                    | Ok tc => Ok [tc]
                    | Raise e => Raise e
                    end
                | Raise e => Raise e
                end)
             (net req))
      end
  end.
Proof.
  unfold run, _handle_get_authors, get_authors_try, try_except, bind, lift,
    requests_get, dict_subscript, paper_response.
  destruct (dict_get "paper_id" arguments) as [paper_id|]; [|reflexivity].
  destruct (py_min_int _ 1000) as [limit|e]; [|reflexivity].
  cbv beta iota zeta. fold (get_authors_request self arguments paper_id limit).
  destruct (net _) as [response|e]; [|reflexivity].
  destruct (Response.status_code response =? 404); [reflexivity|].
  destruct (Response.status_code response =? 200); [|reflexivity].
  simpl negb. cbv iota.
  destruct (Response.json response) as [res|e]; [|reflexivity].
  unfold text_result, bind, lift. destruct (TextContent_init "text" res); reflexivity.
Qed.

Lemma run_get_citation (self : SemanticScholarServer) (net : Upstream) (arguments : dict) :
  run (_handle_get_citation self net arguments) =
  match dict_get "paper_id" arguments with
  | None => ([], error_result "Error generating citation: " (KeyError "paper_id"))
  | Some paper_id =>
      match py_lower (dict_get_default arguments "format" (VStr "bibtex")) with
      | Raise e => ([], error_result "Error generating citation: " e)
      | Ok citation_format =>
          let req := get_citation_request self paper_id in
          ([req],
           paper_response "Error generating citation: " paper_id
             (fun response =>
                match Response.json response with
                | Ok data => outcome (citation_of_data data citation_format)
                | Raise e => Raise e
                end)
             (net req))
      end
  end.
Proof.
  unfold run, _handle_get_citation, get_citation_try, try_except, bind, lift,
    requests_get, dict_subscript, paper_response.
  destruct (dict_get "paper_id" arguments) as [paper_id|]; [|reflexivity].
  destruct (py_lower _) as [citation_format|e]; [|reflexivity].
  cbv beta iota zeta. fold (get_citation_request self paper_id).
  destruct (net _) as [response|e]; [|reflexivity].
  destruct (Response.status_code response =? 404); [reflexivity|].
  destruct (Response.status_code response =? 200); [|reflexivity].
  simpl negb. cbv iota.
  destruct (Response.json response) as [data|e]; [|reflexivity].
  rewrite (citation_of_data_quiet data citation_format).
  destruct (outcome (citation_of_data data citation_format)); reflexivity.
Qed.

Lemma outcome_citation_of_dict (data : dict) (citation_format : string) :
  outcome (citation_of_data (VDict data) citation_format) =
  match dict_get "citationStyles" data with
  | None => Ok [text_content "No citation styles available for this paper."]
  | Some styles =>
      match py_contains citation_format styles with
      | Raise e => Raise e
      | Ok true =>
          match py_subscript styles citation_format with
          | Ok citation => Ok [text_content "TODO"]
          | Raise e => Raise e
          end
      | Ok false =>
          match py_keys styles with
          | Ok keys =>
              Ok [text_content
                    ("Citation format '" ++ citation_format
                       ++ "' not available. Available formats for this paper: "
                       ++ String.concat ", " keys)]
          | Raise e => Raise e
          end
      end
  end.
Proof.
  unfold outcome, run, citation_of_data, bind, lift, py_contains at 1,
    py_subscript at 1 2 3, dict_subscript, py_get, add_abstract.
  destruct (dict_get "citationStyles" data) as [styles|]; [|reflexivity].
  simpl negb. cbv beta iota.
  destruct (py_contains citation_format styles) as [[|]|]; try reflexivity.
  - simpl negb. cbv iota. destruct (py_subscript styles citation_format); reflexivity.
  - simpl negb. cbv iota. destruct (py_keys styles); reflexivity.
Qed.

Lemma call_search_paper self net arguments :
  handle_call_tool self net "search_paper" arguments
  = _handle_search_paper self net arguments.
Proof. reflexivity. Qed.

Lemma call_get_paper self net arguments :
  handle_call_tool self net "get_paper" arguments = _handle_get_paper self net arguments.
Proof. reflexivity. Qed.

Lemma call_get_authors self net arguments :
  handle_call_tool self net "get_authors" arguments
  = _handle_get_authors self net arguments.
Proof. reflexivity. Qed.

Lemma call_get_citation self net arguments :
  handle_call_tool self net "get_citation" arguments
  = _handle_get_citation self net arguments.
Proof. reflexivity. Qed.


(** When the upstream answered a call, the arguments were well formed enough
    to reach the request, and the outcome is the status ladder applied to the
    answer. *)
Lemma get_paper_answered self net arguments response :
  answered (_handle_get_paper self net arguments) net response ->
  exists paper_id,
    dict_get "paper_id" arguments = Some paper_id /\
    outcome (_handle_get_paper self net arguments) =
    paper_response "Error getting paper details: " paper_id
      (fun response =>
         match Response.json response with
         | Ok res => Ok [text_content (py_str res)]
         | Raise e => Raise e
         end)
      (Ok response).
Proof.
  unfold answered, sent, outcome. rewrite run_get_paper.
  destruct (dict_get "paper_id" arguments) as [paper_id|].
  - intros [req [[<-|[]] Hnet]]. exists paper_id. split; [reflexivity|].
    cbv zeta. unfold snd. now rewrite Hnet.
  - intros [req [[] _]].
Qed.

Lemma get_authors_answered self net arguments response :
  answered (_handle_get_authors self net arguments) net response ->
  exists paper_id,
    dict_get "paper_id" arguments = Some paper_id /\
    outcome (_handle_get_authors self net arguments) =
    paper_response "Error getting authors: " paper_id
      (fun response =>
         match Response.json response with
         | Ok res =>
             match TextContent_init "text" res with
             | Ok tc => Ok [tc]
             | Raise e => Raise e
             end
         | Raise e => Raise e
         end)
      (Ok response).
Proof.
  unfold answered, sent, outcome. rewrite run_get_authors.
  destruct (dict_get "paper_id" arguments) as [paper_id|].
  - destruct (py_min_int _ 1000) as [limit|e].
    + intros [req [[<-|[]] Hnet]]. exists paper_id. split; [reflexivity|].
      cbv zeta. unfold snd. now rewrite Hnet.
    + intros [req [[] _]].
  - intros [req [[] _]].
Qed.

Lemma get_citation_answered self net arguments response :
  answered (_handle_get_citation self net arguments) net response ->
  exists paper_id citation_format,
    dict_get "paper_id" arguments = Some paper_id /\
    py_lower (dict_get_default arguments "format" (VStr "bibtex")) = Ok citation_format /\
    outcome (_handle_get_citation self net arguments) =
    paper_response "Error generating citation: " paper_id
      (fun response =>
         match Response.json response with
         | Ok data => outcome (citation_of_data data citation_format)
         | Raise e => Raise e
         end)
      (Ok response).
Proof.
  unfold answered, sent, outcome. rewrite run_get_citation.
  destruct (dict_get "paper_id" arguments) as [paper_id|].
  - destruct (py_lower _) as [citation_format|e].
    + intros [req [[<-|[]] Hnet]]. exists paper_id, citation_format.
      split; [reflexivity|]. split; [reflexivity|].
      cbv zeta. unfold snd. now rewrite Hnet.
    + intros [req [[] _]].
  - intros [req [[] _]].
Qed.

Lemma paper_response_404 label paper_id on_success response :
  Response.status_code response = 404 ->
  paper_response label paper_id on_success (Ok response)
  = Ok [text_content ("Paper not found: " ++ py_str paper_id)].
Proof. intros Hst. unfold paper_response. now rewrite Hst. Qed.

Lemma paper_response_200 label paper_id on_success response :
  Response.status_code response = 200 ->
  paper_response label paper_id on_success (Ok response)
  = match on_success response with
    | Ok l => Ok l
    | Raise e => error_result label e
    end.
Proof. intros Hst. unfold paper_response. now rewrite Hst. Qed.

(** ** The claims *)

(** C7: a [get_paper] or [get_authors] call with the paper id [X] sends its
    request, and when the upstream answers that request with HTTP 404 the
    call returns exactly one text result, whose text is exactly
    ["Paper not found: X"].  For [get_authors] the request carries the
    clamped limit, so its [limit] argument is absent or an integer. *)
Theorem paper_not_found self net arguments X response :
  dict_get "paper_id" arguments = Some (VStr X) ->
  Response.status_code response = 404 ->
  (net (get_paper_request self arguments (VStr X)) = Ok response ->
   run (handle_call_tool self net "get_paper" arguments)
   = ([get_paper_request self arguments (VStr X)],
      Ok [text_content ("Paper not found: " ++ X)])) /\
  (forall limit,
     (dict_get "limit" arguments = None /\ limit = VInt 100) \/
     (exists z, dict_get "limit" arguments = Some (VInt z) /\
                limit = VInt (Z.min z 1000)) ->
     net (get_authors_request self arguments (VStr X) limit) = Ok response ->
     run (handle_call_tool self net "get_authors" arguments)
     = ([get_authors_request self arguments (VStr X) limit],
        Ok [text_content ("Paper not found: " ++ X)])).
Proof.
  intros Hid Hst. split.
  - intros Hnet. rewrite call_get_paper, run_get_paper, Hid. cbv zeta.
    rewrite Hnet. now rewrite (paper_response_404 _ _ _ _ Hst).
  - intros limit Hlimit Hnet.
    rewrite call_get_authors, run_get_authors, Hid. unfold dict_get_default.
    assert (Hclamp : py_min_int
                       match dict_get "limit" arguments with
                       | Some v => v
                       | None => VInt 100
                       end 1000 = Ok limit).
    { destruct Hlimit as [[-> ->] | [z [-> ->]]]; [reflexivity|].
      unfold py_min_int. destruct (Z.ltb_spec 1000 z); do 2 f_equal; lia. }
    rewrite Hclamp. cbv zeta.
    rewrite Hnet. now rewrite (paper_response_404 _ _ _ _ Hst).
Qed.

Lemma paper_not_found_witness :
  run (handle_call_tool server_without_api_key
         (answer_with 404 "Not Found" (Raise (Exception "no body")))
         "get_paper" [("paper_id", VStr "X")])
  = ([get_paper_request server_without_api_key [("paper_id", VStr "X")] (VStr "X")],
     Ok [text_content "Paper not found: X"])
  /\
  run (handle_call_tool server_without_api_key
         (answer_with 404 "Not Found" (Raise (Exception "no body")))
         "get_authors" [("paper_id", VStr "X"); ("limit", VInt 2000)])
  = ([get_authors_request server_without_api_key
        [("paper_id", VStr "X"); ("limit", VInt 2000)] (VStr "X") (VInt 1000)],
     Ok [text_content "Paper not found: X"]).
Proof.
  split.
  - apply (proj1 (paper_not_found server_without_api_key
                    (answer_with 404 "Not Found" (Raise (Exception "no body")))
                    [("paper_id", VStr "X")] "X"
                    (Response.mk 404 "Not Found" (Raise (Exception "no body")))
                    eq_refl eq_refl)).
    reflexivity.
  - apply (proj2 (paper_not_found server_without_api_key
                    (answer_with 404 "Not Found" (Raise (Exception "no body")))
                    [("paper_id", VStr "X"); ("limit", VInt 2000)] "X"
                    (Response.mk 404 "Not Found" (Raise (Exception "no body")))
                    eq_refl eq_refl)
                 (VInt 1000)).
    + right. exists 2000. split; reflexivity.
    + reflexivity.
Defined.

(** C8: when the upstream answers a [get_citation] call with HTTP 200 and a
    JSON object: if the object has no [citationStyles] key the text is exactly
    ["No citation styles available for this paper."]; if [citationStyles] is
    a mapping without the lower-cased requested format, the text names that
    lower-cased format (the value the code calls [citation_format]) and lists
    the available keys joined by [", "]. *)
Theorem citation_unavailable self net arguments response data :
  answered (handle_call_tool self net "get_citation" arguments) net response ->
  Response.status_code response = 200 ->
  Response.json response = Ok (VDict data) ->
  (dict_get "citationStyles" data = None ->
   outcome (handle_call_tool self net "get_citation" arguments)
   = Ok [text_content "No citation styles available for this paper."]) /\
  (forall styles format,
     dict_get "citationStyles" data = Some (VDict styles) ->
     dict_get_default arguments "format" (VStr "bibtex") = VStr format ->
     dict_get (lower format) styles = None ->
     outcome (handle_call_tool self net "get_citation" arguments)
     = Ok [text_content
             ("Citation format '" ++ lower format
                ++ "' not available. Available formats for this paper: "
                ++ String.concat ", " (dict_keys styles))]).
Proof.
  intros Hans Hst Hjson. rewrite call_get_citation in *.
  destruct (get_citation_answered _ _ _ _ Hans) as [paper_id [fmt [_ [Hfmt ->]]]].
  rewrite (paper_response_200 _ _ _ _ Hst), Hjson, outcome_citation_of_dict.
  split.
  - intros ->. reflexivity.
  - intros styles format -> Hformat Hmiss.
    rewrite Hformat in Hfmt. injection Hfmt as <-.
    unfold py_contains, py_keys. now rewrite Hmiss.
Qed.

Lemma citation_unavailable_witness :
  outcome (handle_call_tool server_without_api_key
             (answer_with 200 "" (Ok (VDict [("citationStyles", VDict [("bibtex", VStr "...")])])))
             "get_citation" [("paper_id", VStr "abc"); ("format", VStr "apa")])
  = Ok [text_content
          "Citation format 'apa' not available. Available formats for this paper: bibtex"]
  /\
  outcome (handle_call_tool server_without_api_key
             (answer_with 200 "" (Ok (VDict [("abstract", VStr "A")])))
             "get_citation" [("paper_id", VStr "abc"); ("format", VStr "apa")])
  = Ok [text_content "No citation styles available for this paper."].
Proof.
  split.
  - refine (proj2 (citation_unavailable server_without_api_key
             (answer_with 200 "" (Ok (VDict [("citationStyles", VDict [("bibtex", VStr "...")])])))
             [("paper_id", VStr "abc"); ("format", VStr "apa")]
             (Response.mk 200 "" (Ok (VDict [("citationStyles", VDict [("bibtex", VStr "...")])])))
             [("citationStyles", VDict [("bibtex", VStr "...")])] _ _ _)
             [("bibtex", VStr "...")] "apa" _ _ _);
      try reflexivity.
    eexists. split; [left; reflexivity | reflexivity].
  - refine (proj1 (citation_unavailable server_without_api_key
             (answer_with 200 "" (Ok (VDict [("abstract", VStr "A")])))
             [("paper_id", VStr "abc"); ("format", VStr "apa")]
             (Response.mk 200 "" (Ok (VDict [("abstract", VStr "A")])))
             [("abstract", VStr "A")] _ _ _) _);
      try reflexivity.
    eexists. split; [left; reflexivity | reflexivity].
Defined.

(** C2: when the upstream answers a [get_citation] call with HTTP 200 and an
    object whose [citationStyles] mapping has the lower-cased requested format
    as a key, the text is the constant ["TODO"], whatever the citation, the
    abstract and the format are. *)
Theorem citation_placeholder self net arguments response data styles format citation :
  answered (handle_call_tool self net "get_citation" arguments) net response ->
  Response.status_code response = 200 ->
  Response.json response = Ok (VDict data) ->
  dict_get "citationStyles" data = Some (VDict styles) ->
  dict_get_default arguments "format" (VStr "bibtex") = VStr format ->
  dict_get (lower format) styles = Some citation ->
  outcome (handle_call_tool self net "get_citation" arguments)
  = Ok [text_content "TODO"].
Proof.
  intros Hans Hst Hjson Hstyles Hformat Hcit. rewrite call_get_citation in *.
  destruct (get_citation_answered _ _ _ _ Hans) as [paper_id [fmt [_ [Hfmt ->]]]].
  rewrite (paper_response_200 _ _ _ _ Hst), Hjson, outcome_citation_of_dict, Hstyles.
  rewrite Hformat in Hfmt. injection Hfmt as <-.
  unfold py_contains, py_subscript, dict_subscript. now rewrite Hcit.
Qed.

Lemma citation_placeholder_witness :
  outcome (handle_call_tool server_without_api_key
             (answer_with 200 ""
                (Ok (VDict [("citationStyles", VDict [("bibtex", VStr "@article{...}")]);
                            ("abstract", VStr "A")])))
             "get_citation" [("paper_id", VStr "abc"); ("format", VStr "BibTeX")])
  = Ok [text_content "TODO"].
Proof.
  apply (citation_placeholder server_without_api_key
           (answer_with 200 ""
              (Ok (VDict [("citationStyles", VDict [("bibtex", VStr "@article{...}")]);
                          ("abstract", VStr "A")])))
           [("paper_id", VStr "abc"); ("format", VStr "BibTeX")]
           (Response.mk 200 ""
              (Ok (VDict [("citationStyles", VDict [("bibtex", VStr "@article{...}")]);
                          ("abstract", VStr "A")])))
           [("citationStyles", VDict [("bibtex", VStr "@article{...}")]);
            ("abstract", VStr "A")]
           [("bibtex", VStr "@article{...}")] "BibTeX" (VStr "@article{...}"));
    try reflexivity.
  eexists. split; [left; reflexivity | reflexivity].
Defined.

(** What [get_authors] returns on an answered HTTP 200 with a parsed body: the
    body itself when it is a JSON string, and otherwise the labelled
    validation error, since the body is handed to [TextContent] without
    [str]. *)
Lemma get_authors_success self net arguments response body :
  answered (_handle_get_authors self net arguments) net response ->
  Response.status_code response = 200 ->
  Response.json response = Ok body ->
  outcome (_handle_get_authors self net arguments)
  = match body with
    | VStr s => Ok [text_content s]
    | _ => error_result "Error getting authors: "
             (ValidationError (validation_message body))
    end.
Proof.
  intros Hans Hst Hjson.
  destruct (get_authors_answered _ _ _ _ Hans) as [paper_id [_ ->]].
  rewrite (paper_response_200 _ _ _ _ Hst), Hjson.
  destruct body; reflexivity.
Qed.

(** The sibling [get_paper] on the same answer: the [str] of the body. *)
Lemma get_paper_success self net arguments response body :
  answered (_handle_get_paper self net arguments) net response ->
  Response.status_code response = 200 ->
  Response.json response = Ok body ->
  outcome (_handle_get_paper self net arguments) = Ok [text_content (py_str body)].
Proof.
  intros Hans Hst Hjson.
  destruct (get_paper_answered _ _ _ _ Hans) as [paper_id [_ ->]].
  now rewrite (paper_response_200 _ _ _ _ Hst), Hjson.
Qed.

(** C1: on the call [get_authors {"paper_id": "abc"}] answered with HTTP 200
    and the JSON body [{}], the code does not return the text of the body:
    [TextContent] refuses the parsed object, the guarded block raises, and the
    single result is the labelled error.  [get_paper] on the same answer
    returns the text of the body. *)
Theorem get_authors_body_not_forwarded :
  outcome (handle_call_tool server_without_api_key (answer_with 200 "{}" (Ok (VDict [])))
             "get_authors" [("paper_id", VStr "abc")])
  = Ok [text_content ("Error getting authors: " ++ validation_message (VDict []))]
  /\
  outcome (handle_call_tool server_without_api_key (answer_with 200 "{}" (Ok (VDict [])))
             "get_authors" [("paper_id", VStr "abc")])
  <> Ok [text_content (py_str (VDict []))]
  /\
  outcome (handle_call_tool server_without_api_key (answer_with 200 "{}" (Ok (VDict [])))
             "get_paper" [("paper_id", VStr "abc")])
  = Ok [text_content (py_str (VDict []))].
Proof.
  split; [reflexivity | split; [|reflexivity]].
  intro H. vm_compute in H. discriminate H.
Qed.

(** ** Totality of the handlers *)



Lemma paper_response_total label paper_id on_success answer :
  (forall response l, on_success response = Ok l -> exists tc, l = [tc]) ->
  exists tc, paper_response label paper_id on_success answer = Ok [tc].
Proof.
  intros Hone. unfold paper_response, error_result.
  destruct answer as [response|e]; [|eauto].
  destruct (Response.status_code response =? 404); [eauto|].
  destruct (negb (Response.status_code response =? 200)); [eauto|].
  destruct (on_success response) as [l|e] eqn:E; [|eauto].
  destruct (Hone _ _ E) as [tc ->]. eauto.
Qed.

Lemma citation_of_data_one (data : pyval) (citation_format : string) (l : list TextContent.t) :
  outcome (citation_of_data data citation_format) = Ok l -> exists tc, l = [tc].
Proof.
  unfold outcome, run, citation_of_data, bind, lift.
  destruct (py_contains "citationStyles" data) as [[|]|]; simpl negb; cbv beta iota;
    try (intros H; inversion H; eauto; fail).
  destruct (py_subscript data "citationStyles") as [styles|]; cbv beta iota;
    try (intros H; inversion H; eauto; fail).
  destruct (py_contains citation_format styles) as [[|]|]; simpl negb; cbv beta iota;
    try (intros H; inversion H; eauto; fail).
  - destruct (py_subscript styles citation_format); cbv beta iota;
      try (intros H; inversion H; eauto; fail).
    destruct (py_get data "abstract" (VStr "")); intros H; inversion H; eauto.
  - destruct (py_keys styles); intros H; inversion H; eauto.
Qed.

Lemma search_paper_total self net arguments :
  exists tc, outcome (_handle_search_paper self net arguments) = Ok [tc].
Proof.
  unfold outcome. rewrite run_search_paper. unfold error_result.
  destruct (dict_get "query" arguments); [|simpl; eauto].
  destruct (py_min_int _ 100); [|simpl; eauto].
  cbv zeta. unfold snd.
  destruct (net _) as [response|e]; [|eauto].
  destruct (negb (Response.status_code response =? 200)); [eauto|].
  destruct (Response.json response); eauto.
Qed.

Lemma get_paper_total self net arguments :
  exists tc, outcome (_handle_get_paper self net arguments) = Ok [tc].
Proof.
  unfold outcome. rewrite run_get_paper.
  destruct (dict_get "paper_id" arguments); [|unfold error_result; simpl; eauto].
  cbv zeta. unfold snd. apply paper_response_total.
  intros response l. destruct (Response.json response); intros H; inversion H; eauto.
Qed.

Lemma get_authors_total self net arguments :
  exists tc, outcome (_handle_get_authors self net arguments) = Ok [tc].
Proof.
  unfold outcome. rewrite run_get_authors.
  destruct (dict_get "paper_id" arguments); [|unfold error_result; simpl; eauto].
  destruct (py_min_int _ 1000); [|unfold error_result; simpl; eauto].
  cbv zeta. unfold snd. apply paper_response_total.
  intros response l. destruct (Response.json response) as [res|]; [|discriminate].
  destruct (TextContent_init "text" res); intros H; inversion H; eauto.
Qed.

Lemma get_citation_total self net arguments :
  exists tc, outcome (_handle_get_citation self net arguments) = Ok [tc].
Proof.
  unfold outcome. rewrite run_get_citation.
  destruct (dict_get "paper_id" arguments); [|unfold error_result; simpl; eauto].
  destruct (py_lower _); [|unfold error_result; simpl; eauto].
  cbv zeta. unfold snd. apply paper_response_total.
  intros response l. destruct (Response.json response) as [data|]; [|discriminate].
  apply citation_of_data_one.
Qed.




(** ** The outbound request *)

Lemma clamp_is_min (bound z : Z) :
  (if bound <? z then VInt bound else VInt z) = VInt (Z.min z bound).
Proof. destruct (Z.ltb_spec bound z); f_equal; lia. Qed.

Lemma search_params_limit (arguments : dict) (query limit : pyval) :
  dict_get "limit" (search_paper_params arguments query limit) = Some limit.
Proof.
  unfold search_paper_params. cbv zeta.
  destruct (truthy _); [rewrite dict_get_set_other by discriminate|];
    (rewrite forward_params_other; [reflexivity|]);
    unfold queryParams_list; simpl; intuition discriminate.
Qed.

Lemma search_params_open_access (arguments : dict) (query limit : pyval) :
  dict_get "openAccessPdf" (search_paper_params arguments query limit)
  = if truthy (dict_get_default arguments "openAccessPdf" VNone)
    then Some (VStr "") else None.
Proof.
  unfold search_paper_params. cbv zeta.
  destruct (truthy _); [apply dict_get_set_same|].
  rewrite forward_params_other; [reflexivity|].
  unfold queryParams_list; simpl; intuition discriminate.
Qed.

(** The requests of a [search_paper] call: none, or the one built from the
    arguments. *)
Lemma search_paper_sent self net arguments :
  sent (_handle_search_paper self net arguments) =
  match dict_get "query" arguments with
  | None => []
  | Some query =>
      match py_min_int (dict_get_default arguments "limit" (VInt 10)) 100 with
      | Raise _ => []
      | Ok limit => [search_paper_request self arguments query limit]
      end
  end.
Proof.
  unfold sent. rewrite run_search_paper.
  destruct (dict_get "query" arguments); [|reflexivity].
  destruct (py_min_int _ 100); reflexivity.
Qed.

Lemma get_authors_sent self net arguments :
  sent (_handle_get_authors self net arguments) =
  match dict_get "paper_id" arguments with
  | None => []
  | Some paper_id =>
      match py_min_int (dict_get_default arguments "limit" (VInt 100)) 1000 with
      | Raise _ => []
      | Ok limit => [get_authors_request self arguments paper_id limit]
      end
  end.
Proof.
  unfold sent. rewrite run_get_authors.
  destruct (dict_get "paper_id" arguments); [|reflexivity].
  destruct (py_min_int _ 1000); reflexivity.
Qed.

Lemma get_paper_sent self net arguments :
  sent (_handle_get_paper self net arguments) =
  match dict_get "paper_id" arguments with
  | None => []
  | Some paper_id => [get_paper_request self arguments paper_id]
  end.
Proof.
  unfold sent. rewrite run_get_paper.
  destruct (dict_get "paper_id" arguments); reflexivity.
Qed.

Lemma get_citation_sent self net arguments :
  sent (_handle_get_citation self net arguments) =
  match dict_get "paper_id" arguments with
  | None => []
  | Some paper_id =>
      match py_lower (dict_get_default arguments "format" (VStr "bibtex")) with
      | Raise _ => []
      | Ok _ => [get_citation_request self paper_id]
      end
  end.
Proof.
  unfold sent. rewrite run_get_citation.
  destruct (dict_get "paper_id" arguments); [|reflexivity].
  destruct (py_lower _); reflexivity.
Qed.

(** C4: a [search_paper] call with an integer [limit] sends one request whose
    [limit] parameter is [min(limit, 100)], and 10 when [limit] is absent; a
    [get_authors] call sends [min(limit, 1000)], and 100 when absent. *)
Theorem limit_is_clamped self net arguments :
  (forall query,
     dict_get "query" arguments = Some query ->
     (forall z,
        dict_get "limit" arguments = Some (VInt z) ->
        exists req,
          sent (handle_call_tool self net "search_paper" arguments) = [req] /\
          dict_get "limit" (params req) = Some (VInt (Z.min z 100))) /\
     (dict_get "limit" arguments = None ->
      exists req,
        sent (handle_call_tool self net "search_paper" arguments) = [req] /\
        dict_get "limit" (params req) = Some (VInt 10))) /\
  (forall paper_id,
     dict_get "paper_id" arguments = Some paper_id ->
     (forall z,
        dict_get "limit" arguments = Some (VInt z) ->
        exists req,
          sent (handle_call_tool self net "get_authors" arguments) = [req] /\
          dict_get "limit" (params req) = Some (VInt (Z.min z 1000))) /\
     (dict_get "limit" arguments = None ->
      exists req,
        sent (handle_call_tool self net "get_authors" arguments) = [req] /\
        dict_get "limit" (params req) = Some (VInt 100))).
Proof.
  rewrite call_search_paper, call_get_authors, search_paper_sent, get_authors_sent.
  unfold dict_get_default.
  split.
  - intros query ->. split.
    + intros z ->. unfold py_min_int. rewrite clamp_is_min.
      eexists. split; [reflexivity|]. apply search_params_limit.
    + intros ->. eexists. split; [reflexivity|]. apply search_params_limit.
  - intros paper_id ->. split.
    + intros z ->. unfold py_min_int. rewrite clamp_is_min.
      eexists. split; [reflexivity|]. reflexivity.
    + intros ->. eexists. split; [reflexivity|]. reflexivity.
Qed.

Lemma limit_is_clamped_witness :
  (exists req,
     sent (handle_call_tool server_without_api_key (answer_with 200 "{}" (Ok (VDict [])))
             "search_paper" [("query", VStr "test"); ("limit", VInt 200)]) = [req] /\
     dict_get "limit" (params req) = Some (VInt 100)) /\
  (exists req,
     sent (handle_call_tool server_without_api_key (answer_with 200 "{}" (Ok (VDict [])))
             "search_paper" [("query", VStr "test"); ("limit", VInt 50)]) = [req] /\
     dict_get "limit" (params req) = Some (VInt 50)).
Proof.
  split.
  - apply (proj1 (proj1 (limit_is_clamped server_without_api_key
                           (answer_with 200 "{}" (Ok (VDict [])))
                           [("query", VStr "test"); ("limit", VInt 200)])
                        (VStr "test") eq_refl) 200 eq_refl).
  - apply (proj1 (proj1 (limit_is_clamped server_without_api_key
                           (answer_with 200 "{}" (Ok (VDict [])))
                           [("query", VStr "test"); ("limit", VInt 50)])
                        (VStr "test") eq_refl) 50 eq_refl).
Defined.

(** C5: when the arguments of a [search_paper] call hold a truthy
    [openAccessPdf], every request the call sends maps the query parameter
    [openAccessPdf] to the empty string; and the call does send one request
    as soon as [query] is present and [limit] is absent or an integer. *)
Theorem open_access_flag_is_empty_string self net arguments v :
  dict_get "openAccessPdf" arguments = Some v ->
  truthy v = true ->
  (forall req,
     In req (sent (handle_call_tool self net "search_paper" arguments)) ->
     dict_get "openAccessPdf" (params req) = Some (VStr "")) /\
  (forall query,
     dict_get "query" arguments = Some query ->
     dict_get "limit" arguments = None \/
     (exists z, dict_get "limit" arguments = Some (VInt z)) ->
     exists req, sent (handle_call_tool self net "search_paper" arguments) = [req]).
Proof.
  intros Hflag Htruthy.
  assert (Hparams : forall query limit,
             dict_get "openAccessPdf" (search_paper_params arguments query limit)
             = Some (VStr "")).
  { intros query limit. rewrite search_params_open_access.
    unfold dict_get_default. now rewrite Hflag, Htruthy. }
  rewrite call_search_paper, search_paper_sent. split.
  - intros req. destruct (dict_get "query" arguments) as [query|]; [|intros []].
    destruct (py_min_int _ 100) as [limit|]; [|intros []].
    intros [<-|[]]. apply Hparams.
  - intros query -> Hlimit. unfold dict_get_default.
    destruct Hlimit as [-> | [z ->]]; eexists; reflexivity.
Qed.

Lemma open_access_flag_is_empty_string_witness :
  exists req,
    sent (handle_call_tool server_without_api_key (answer_with 200 "{}" (Ok (VDict [])))
            "search_paper"
            [("query", VStr "machine learning"); ("openAccessPdf", VBool true);
             ("limit", VInt 50)]) = [req] /\
    dict_get "openAccessPdf" (params req) = Some (VStr "").
Proof.
  destruct (open_access_flag_is_empty_string server_without_api_key
              (answer_with 200 "{}" (Ok (VDict [])))
              [("query", VStr "machine learning"); ("openAccessPdf", VBool true);
               ("limit", VInt 50)]
              (VBool true) eq_refl eq_refl) as [Hall Hsome].
  destruct (Hsome (VStr "machine learning") eq_refl
              (or_intror (ex_intro _ 50 eq_refl))) as [req Hreq].
  exists req. split; [exact Hreq|].
  apply Hall. rewrite Hreq. left. reflexivity.
Defined.

(** Every request of every tool call carries the headers of [_get_headers]. *)
Lemma call_tool_headers self net name arguments req :
  In req (sent (handle_call_tool self net name arguments)) ->
  headers req = _get_headers self.
Proof.
  unfold handle_call_tool.
  destruct (name =? "search_paper")%string.
  { rewrite search_paper_sent.
    destruct (dict_get "query" arguments); [|intros []].
    destruct (py_min_int _ 100); [|intros []]. now intros [<-|[]]. }
  destruct (name =? "get_paper")%string.
  { rewrite get_paper_sent.
    destruct (dict_get "paper_id" arguments); [|intros []]. now intros [<-|[]]. }
  destruct (name =? "get_authors")%string.
  { rewrite get_authors_sent.
    destruct (dict_get "paper_id" arguments); [|intros []].
    destruct (py_min_int _ 1000); [|intros []]. now intros [<-|[]]. }
  destruct (name =? "get_citation")%string.
  { rewrite get_citation_sent.
    destruct (dict_get "paper_id" arguments); [|intros []].
    destruct (py_lower _); [|intros []]. now intros [<-|[]]. }
  intros [].
Qed.

(** C6: the headers of every request a tool call sends are those of
    [_get_headers]; they map [Accept] to ["application/json"]; they hold no
    [x-api-key] when the key is [None] or empty, and map [x-api-key] to the
    key when it is a non-empty string. *)
Theorem api_key_header self :
  (forall net name arguments req,
     In req (sent (handle_call_tool self net name arguments)) ->
     headers req = _get_headers self) /\
  dict_get "Accept" (_get_headers self) = Some "application/json" /\
  (api_key self = None \/ api_key self = Some "" ->
   dict_get "x-api-key" (_get_headers self) = None) /\
  (forall key,
     api_key self = Some key -> key <> "" ->
     dict_get "x-api-key" (_get_headers self) = Some key).
Proof.
  split; [intros net name arguments req; apply call_tool_headers|].
  unfold _get_headers.
  destruct (api_key self) as [key|].
  - destruct (String.eqb_spec key "") as [->|Hne].
    + repeat split; try reflexivity. intros key [= <-] Hne. now elim Hne.
    + repeat split; try reflexivity.
      * intros [H|[= ->]]; [discriminate | now elim Hne].
      * now intros key' [= <-] _.
  - repeat split; try reflexivity. discriminate.
Qed.

Lemma api_key_header_witness :
  (forall req,
     In req (sent (handle_call_tool server_with_api_key (answer_with 200 "{}" (Ok (VDict [])))
                     "get_paper" [("paper_id", VStr "abc")])) ->
     dict_get "x-api-key" (headers req) = Some "test-api-key" /\
     dict_get "Accept" (headers req) = Some "application/json") /\
  dict_get "x-api-key" (_get_headers server_without_api_key) = None /\
  dict_get "x-api-key" (_get_headers (__init__ (Some ""))) = None.
Proof.
  split; [|split].
  - intros req Hin.
    destruct (api_key_header server_with_api_key) as [Hall [Haccept [_ Hkey]]].
    rewrite (Hall _ _ _ _ Hin). split; [|exact Haccept].
    apply Hkey; [reflexivity | discriminate].
  - apply (proj1 (proj2 (proj2 (api_key_header server_without_api_key)))).
    left. reflexivity.
  - apply (proj1 (proj2 (proj2 (api_key_header (__init__ (Some "")))))).
    right. reflexivity.
Defined.

(** ** Dispatch *)

Lemma known_tool_total self net name arguments :
  In name tool_names ->
  exists tc, outcome (handle_call_tool self net name arguments) = Ok [tc].
Proof.
  unfold tool_names. simpl.
  intros [<- | [<- | [<- | [<- | []]]]].
  - apply search_paper_total.
  - apply get_paper_total.
  - apply get_authors_total.
  - apply get_citation_total.
Qed.

Lemma unknown_tool_raises self net name arguments :
  ~ In name tool_names ->
  run (handle_call_tool self net name arguments)
  = ([], Raise (ValueError ("Unknown tool: " ++ name))).
Proof.
  unfold tool_names, handle_call_tool. simpl. intros Hnot.
  destruct (String.eqb_spec name "search_paper") as [E|_]; [elim Hnot; auto|].
  destruct (String.eqb_spec name "get_paper") as [E|_]; [elim Hnot; auto|].
  destruct (String.eqb_spec name "get_authors") as [E|_]; [elim Hnot; auto|].
  destruct (String.eqb_spec name "get_citation") as [E|_]; [elim Hnot; auto 6|].
  reflexivity.
Qed.

(** On a [str] the handler does what its branches say: a document for the
    two advertised URIs, [ValueError] for any other. *)
Lemma read_by_str (text : string) :
  (In text resource_uris -> exists document,
      handle_read_resource (UriStr text) = Ok document) /\
  (~ In text resource_uris ->
   handle_read_resource (UriStr text) = Raise (ValueError ("Unknown resource: " ++ text))).
Proof.
  unfold resource_uris, handle_read_resource, uri_eq_str, str_uri. simpl. split.
  - intros [<- | [<- | []]]; eexists; reflexivity.
  - intros Hnot.
    destruct (String.eqb_spec text "semantic-scholar://fields/paper") as [E|_];
      [elim Hnot; auto|].
    destruct (String.eqb_spec text "semantic-scholar://fields/author") as [E|_];
      [elim Hnot; auto|].
    reflexivity.
Qed.

(** Through the library every read raises, whatever is requested. *)
Lemma read_resource_raises (requested : string) :
  read_resource requested = Raise (ValueError ("Unknown resource: " ++ requested)).
Proof. reflexivity. Qed.

(** C9: reading [semantic-scholar://fields/paper] or
    [semantic-scholar://fields/author], the two URIs [handle_list_resources]
    advertises, raises [ValueError] as for an unknown URI: the handler is
    given an [AnyUrl], which is never equal to the [str] it is compared
    with.  On the same URIs as [str] the handler returns the documents, which
    is what its branches are written for.  So an unknown name is not the only
    condition under which an entry point raises. *)
Theorem known_resource_read_raises :
  In "semantic-scholar://fields/paper" resource_uris /\
  read_resource "semantic-scholar://fields/paper"
  = Raise (ValueError "Unknown resource: semantic-scholar://fields/paper") /\
  In "semantic-scholar://fields/author" resource_uris /\
  read_resource "semantic-scholar://fields/author"
  = Raise (ValueError "Unknown resource: semantic-scholar://fields/author") /\
  handle_read_resource (UriStr "semantic-scholar://fields/paper")
  = Ok _get_paper_fields_documentation /\
  handle_read_resource (UriStr "semantic-scholar://fields/author")
  = Ok _get_author_fields_documentation.
Proof.
  unfold resource_uris. simpl.
  repeat split; auto.
Qed.

(** C10: a [search_paper] call without [query], and a [get_paper],
    [get_authors] or [get_citation] call without [paper_id], does not raise:
    the lookup raises [KeyError] inside the guarded block, and the call
    returns one text result made of the label of the operation and the
    quoted key. *)
Theorem missing_required_key self net arguments :
  (dict_get "query" arguments = None ->
   outcome (search_paper_try self net arguments) = Raise (KeyError "query") /\
   outcome (handle_call_tool self net "search_paper" arguments)
   = Ok [text_content "Error searching papers: 'query'"] /\
   prefix "Error searching papers: " "Error searching papers: 'query'" = true) /\
  (dict_get "paper_id" arguments = None ->
   (outcome (get_paper_try self net arguments) = Raise (KeyError "paper_id") /\
    outcome (handle_call_tool self net "get_paper" arguments)
    = Ok [text_content "Error getting paper details: 'paper_id'"] /\
    prefix "Error getting paper details: " "Error getting paper details: 'paper_id'"
    = true) /\
   (outcome (get_authors_try self net arguments) = Raise (KeyError "paper_id") /\
    outcome (handle_call_tool self net "get_authors" arguments)
    = Ok [text_content "Error getting authors: 'paper_id'"] /\
    prefix "Error getting authors: " "Error getting authors: 'paper_id'" = true) /\
   (outcome (get_citation_try self net arguments) = Raise (KeyError "paper_id") /\
    outcome (handle_call_tool self net "get_citation" arguments)
    = Ok [text_content "Error generating citation: 'paper_id'"] /\
    prefix "Error generating citation: " "Error generating citation: 'paper_id'"
    = true)).
Proof.
  rewrite call_search_paper, call_get_paper, call_get_authors, call_get_citation.
  unfold outcome at 2 4 6 8.
  rewrite run_search_paper, run_get_paper, run_get_authors, run_get_citation.
  unfold outcome, run, search_paper_try, get_paper_try, get_authors_try,
    get_citation_try, bind, lift, dict_subscript.
  split.
  - intros ->. repeat split.
  - intros ->. repeat split.
Qed.

Lemma missing_required_key_witness :
  outcome (handle_call_tool server_without_api_key network_error "search_paper"
             [("limit", VInt 5)])
  = Ok [text_content "Error searching papers: 'query'"] /\
  outcome (handle_call_tool server_without_api_key network_error "get_citation"
             [("format", VStr "apa")])
  = Ok [text_content "Error generating citation: 'paper_id'"].
Proof.
  split.
  - apply (proj1 (missing_required_key server_without_api_key network_error
                    [("limit", VInt 5)]) eq_refl).
  - apply (proj2 (proj2 (missing_required_key server_without_api_key network_error
                           [("format", VStr "apa")]) eq_refl)).
Defined.

(** * Further properties of the handlers *)

(** ** What each operation makes of the upstream's answer *)

Lemma search_paper_answered self net arguments response :
  answered (_handle_search_paper self net arguments) net response ->
  outcome (_handle_search_paper self net arguments) =
  if negb (Response.status_code response =? 200)
  then Ok [text_content (api_error_text response)]
  else match Response.json response with
       | Ok res => Ok [text_content (py_str res)]
       | Raise e => error_result "Error searching papers: " e
       end.
Proof.
  unfold answered, sent, outcome. rewrite run_search_paper.
  destruct (dict_get "query" arguments) as [query|]; [|intros [req [[] _]]].
  destruct (py_min_int _ 100) as [limit|e]; [|intros [req [[] _]]].
  intros [req [[<-|[]] Hnet]]. cbv zeta. unfold snd. now rewrite Hnet.
Qed.

Lemma paper_response_other label paper_id on_success response :
  Response.status_code response <> 404 ->
  Response.status_code response <> 200 ->
  paper_response label paper_id on_success (Ok response)
  = Ok [text_content (api_error_text response)].
Proof.
  intros H404 H200. unfold paper_response.
  apply Z.eqb_neq in H404, H200. now rewrite H404, H200.
Qed.

(** X1: when the upstream answers a call with a status other than 200 (and,
    for the three operations keyed by a paper id, other than 404), the single
    result reads ["Error: API returned status {code}: {body text}"];
    [search_paper] has no special case for 404. *)
Theorem upstream_error_text self net name arguments response :
  In name tool_names ->
  answered (handle_call_tool self net name arguments) net response ->
  Response.status_code response <> 200 ->
  name = "search_paper" \/ Response.status_code response <> 404 ->
  outcome (handle_call_tool self net name arguments)
  = Ok [text_content
          ("Error: API returned status " ++ str_of_Z (Response.status_code response)
             ++ ": " ++ Response.text response)].
Proof.
  unfold tool_names. simpl.
  intros [<- | [<- | [<- | [<- | []]]]] Hans H200 H404.
  - rewrite call_search_paper in *. rewrite (search_paper_answered _ _ _ _ Hans).
    apply Z.eqb_neq in H200. now rewrite H200.
  - destruct H404 as [H|H404]; [discriminate|]. rewrite call_get_paper in *.
    destruct (get_paper_answered _ _ _ _ Hans) as [paper_id [_ ->]].
    now apply paper_response_other.
  - destruct H404 as [H|H404]; [discriminate|]. rewrite call_get_authors in *.
    destruct (get_authors_answered _ _ _ _ Hans) as [paper_id [_ ->]].
    now apply paper_response_other.
  - destruct H404 as [H|H404]; [discriminate|]. rewrite call_get_citation in *.
    destruct (get_citation_answered _ _ _ _ Hans) as [paper_id [fmt [_ [_ ->]]]].
    now apply paper_response_other.
Qed.

Lemma upstream_error_text_witness :
  outcome (handle_call_tool server_without_api_key
             (answer_with 404 "Not Found" (Raise (Exception "no body")))
             "search_paper" [("query", VStr "machine learning")])
  = Ok [text_content "Error: API returned status 404: Not Found"]
  /\
  outcome (handle_call_tool server_without_api_key
             (answer_with 500 "Internal Server Error" (Raise (Exception "no body")))
             "get_paper" [("paper_id", VStr "abc")])
  = Ok [text_content "Error: API returned status 500: Internal Server Error"]
  /\
  outcome (handle_call_tool server_without_api_key
             (answer_with 429 "Too Many Requests" (Raise (Exception "no body")))
             "get_authors" [("paper_id", VStr "abc")])
  = Ok [text_content "Error: API returned status 429: Too Many Requests"]
  /\
  outcome (handle_call_tool server_without_api_key
             (answer_with 503 "Service Unavailable" (Raise (Exception "no body")))
             "get_citation" [("paper_id", VStr "abc")])
  = Ok [text_content "Error: API returned status 503: Service Unavailable"].
Proof.
  split; [|split; [|split]].
  - apply (upstream_error_text server_without_api_key
             (answer_with 404 "Not Found" (Raise (Exception "no body")))
             "search_paper" [("query", VStr "machine learning")]
             (Response.mk 404 "Not Found" (Raise (Exception "no body")))).
    + left. reflexivity.
    + eexists. split; [left; reflexivity | reflexivity].
    + discriminate.
    + left. reflexivity.
  - apply (upstream_error_text server_without_api_key
             (answer_with 500 "Internal Server Error" (Raise (Exception "no body")))
             "get_paper" [("paper_id", VStr "abc")]
             (Response.mk 500 "Internal Server Error" (Raise (Exception "no body")))).
    + right. left. reflexivity.
    + eexists. split; [left; reflexivity | reflexivity].
    + discriminate.
    + right. discriminate.
  - apply (upstream_error_text server_without_api_key
             (answer_with 429 "Too Many Requests" (Raise (Exception "no body")))
             "get_authors" [("paper_id", VStr "abc")]
             (Response.mk 429 "Too Many Requests" (Raise (Exception "no body")))).
    + right. right. left. reflexivity.
    + eexists. split; [left; reflexivity | reflexivity].
    + discriminate.
    + right. discriminate.
  - apply (upstream_error_text server_without_api_key
             (answer_with 503 "Service Unavailable" (Raise (Exception "no body")))
             "get_citation" [("paper_id", VStr "abc")]
             (Response.mk 503 "Service Unavailable" (Raise (Exception "no body")))).
    + right. right. right. left. reflexivity.
    + eexists. split; [left; reflexivity | reflexivity].
    + discriminate.
    + right. discriminate.
Defined.

(** X2: a [search_paper] or [get_paper] call whose request the upstream
    answers with HTTP 200 and a JSON body returns, as its single result, the
    [str] of the parsed body.  Stated for the bodies on which [py_str] is
    exact: [null], booleans, integers, ASCII strings, and lists and objects
    of these (no float, no text outside ASCII). *)
Theorem success_forwards_body_text self net arguments response body :
  Response.status_code response = 200 ->
  Response.json response = Ok body ->
  ascii_value body = true ->
  (forall query limit,
     dict_get "query" arguments = Some query ->
     (dict_get "limit" arguments = None /\ limit = VInt 10) \/
     (exists z, dict_get "limit" arguments = Some (VInt z) /\
                limit = VInt (Z.min z 100)) ->
     net (search_paper_request self arguments query limit) = Ok response ->
     run (handle_call_tool self net "search_paper" arguments)
     = ([search_paper_request self arguments query limit],
        Ok [text_content (py_str body)])) /\
  (forall paper_id,
     dict_get "paper_id" arguments = Some paper_id ->
     net (get_paper_request self arguments paper_id) = Ok response ->
     run (handle_call_tool self net "get_paper" arguments)
     = ([get_paper_request self arguments paper_id],
        Ok [text_content (py_str body)])).
Proof.
  intros Hst Hjson _. split.
  - intros query limit Hq Hlimit Hnet.
    rewrite call_search_paper, run_search_paper, Hq. unfold dict_get_default.
    assert (Hclamp : py_min_int
                       match dict_get "limit" arguments with
                       | Some v => v
                       | None => VInt 10
                       end 100 = Ok limit).
    { destruct Hlimit as [[-> ->] | [z [-> ->]]]; [reflexivity|].
      unfold py_min_int. destruct (Z.ltb_spec 100 z); do 2 f_equal; lia. }
    rewrite Hclamp. cbv zeta. now rewrite Hnet, Hst, Hjson.
  - intros paper_id Hid Hnet.
    rewrite call_get_paper, run_get_paper, Hid. cbv zeta.
    now rewrite Hnet, (paper_response_200 _ _ _ _ Hst), Hjson.
Qed.

Lemma success_forwards_body_text_witness :
  outcome (handle_call_tool server_without_api_key
             (answer_with 200 ""
                (Ok (VDict [("total", VInt 1);
                            ("data", VList [VDict [("paperId", VStr "abc");
                                                   ("title", VStr "T")]])])))
             "search_paper" [("query", VStr "machine learning")])
  = Ok [text_content "{'total': 1, 'data': [{'paperId': 'abc', 'title': 'T'}]}"]
  /\
  outcome (handle_call_tool server_without_api_key
             (answer_with 200 ""
                (Ok (VDict [("paperId", VStr "abc"); ("year", VInt 2023);
                            ("journal", VNone)])))
             "get_paper" [("paper_id", VStr "abc")])
  = Ok [text_content "{'paperId': 'abc', 'year': 2023, 'journal': None}"].
Proof.
  split.
  - unfold outcome.
    rewrite (proj1 (success_forwards_body_text server_without_api_key
               (answer_with 200 ""
                  (Ok (VDict [("total", VInt 1);
                              ("data", VList [VDict [("paperId", VStr "abc");
                                                     ("title", VStr "T")]])])))
               [("query", VStr "machine learning")]
               (Response.mk 200 ""
                  (Ok (VDict [("total", VInt 1);
                              ("data", VList [VDict [("paperId", VStr "abc");
                                                     ("title", VStr "T")]])])))
               (VDict [("total", VInt 1);
                       ("data", VList [VDict [("paperId", VStr "abc");
                                              ("title", VStr "T")]])])
               eq_refl eq_refl eq_refl)
             (VStr "machine learning") (VInt 10) eq_refl
             (or_introl (conj eq_refl eq_refl)) eq_refl).
    reflexivity.
  - unfold outcome.
    rewrite (proj2 (success_forwards_body_text server_without_api_key
               (answer_with 200 ""
                  (Ok (VDict [("paperId", VStr "abc"); ("year", VInt 2023);
                              ("journal", VNone)])))
               [("paper_id", VStr "abc")]
               (Response.mk 200 ""
                  (Ok (VDict [("paperId", VStr "abc"); ("year", VInt 2023);
                              ("journal", VNone)])))
               (VDict [("paperId", VStr "abc"); ("year", VInt 2023); ("journal", VNone)])
               eq_refl eq_refl eq_refl)
             (VStr "abc") eq_refl eq_refl).
    reflexivity.
Defined.

(** X3: when the request of a call fails in transport with the exception [e],
    the single result is exactly the label of the operation followed by
    [str(e)]. *)
Theorem transport_error_text self net name arguments req e :
  In name tool_names ->
  In req (sent (handle_call_tool self net name arguments)) ->
  net req = Raise e ->
  outcome (handle_call_tool self net name arguments)
  = Ok [text_content (error_label name ++ str_exn e)].
Proof.
  unfold tool_names. simpl.
  intros [<- | [<- | [<- | [<- | []]]]].
  - rewrite call_search_paper. unfold sent, outcome. rewrite run_search_paper.
    destruct (dict_get "query" arguments); [|intros []].
    destruct (py_min_int _ 100); [|intros []].
    intros [<-|[]] Hnet. cbv zeta. unfold snd. now rewrite Hnet.
  - rewrite call_get_paper. unfold sent, outcome. rewrite run_get_paper.
    destruct (dict_get "paper_id" arguments); [|intros []].
    intros [<-|[]] Hnet. cbv zeta. unfold snd. now rewrite Hnet.
  - rewrite call_get_authors. unfold sent, outcome. rewrite run_get_authors.
    destruct (dict_get "paper_id" arguments); [|intros []].
    destruct (py_min_int _ 1000); [|intros []].
    intros [<-|[]] Hnet. cbv zeta. unfold snd. now rewrite Hnet.
  - rewrite call_get_citation. unfold sent, outcome. rewrite run_get_citation.
    destruct (dict_get "paper_id" arguments); [|intros []].
    destruct (py_lower _); [|intros []].
    intros [<-|[]] Hnet. cbv zeta. unfold snd. now rewrite Hnet.
Qed.

Lemma transport_error_text_witness :
  outcome (handle_call_tool server_without_api_key network_error "search_paper"
             [("query", VStr "machine learning")])
  = Ok [text_content "Error searching papers: Network error"]
  /\
  outcome (handle_call_tool server_without_api_key network_error "get_paper"
             [("paper_id", VStr "abc")])
  = Ok [text_content "Error getting paper details: Network error"]
  /\
  outcome (handle_call_tool server_without_api_key network_error "get_authors"
             [("paper_id", VStr "abc")])
  = Ok [text_content "Error getting authors: Network error"]
  /\
  outcome (handle_call_tool server_without_api_key network_error "get_citation"
             [("paper_id", VStr "abc")])
  = Ok [text_content "Error generating citation: Network error"].
Proof.
  split; [|split; [|split]].
  - apply (transport_error_text server_without_api_key network_error "search_paper"
             [("query", VStr "machine learning")]
             (search_paper_request server_without_api_key
                [("query", VStr "machine learning")] (VStr "machine learning") (VInt 10))
             (Exception "Network error")).
    + left. reflexivity.
    + left. reflexivity.
    + reflexivity.
  - apply (transport_error_text server_without_api_key network_error "get_paper"
             [("paper_id", VStr "abc")]
             (get_paper_request server_without_api_key [("paper_id", VStr "abc")]
                (VStr "abc"))
             (Exception "Network error")).
    + right. left. reflexivity.
    + left. reflexivity.
    + reflexivity.
  - apply (transport_error_text server_without_api_key network_error "get_authors"
             [("paper_id", VStr "abc")]
             (get_authors_request server_without_api_key [("paper_id", VStr "abc")]
                (VStr "abc") (VInt 100))
             (Exception "Network error")).
    + right. right. left. reflexivity.
    + left. reflexivity.
    + reflexivity.
  - apply (transport_error_text server_without_api_key network_error "get_citation"
             [("paper_id", VStr "abc")]
             (get_citation_request server_without_api_key (VStr "abc"))
             (Exception "Network error")).
    + right. right. right. left. reflexivity.
    + left. reflexivity.
    + reflexivity.
Defined.

(** X4: when the upstream answers HTTP 200 but parsing the body raises [e],
    the single result is the label of the operation followed by [str(e)]. *)
Theorem malformed_body_text self net name arguments response e :
  In name tool_names ->
  answered (handle_call_tool self net name arguments) net response ->
  Response.status_code response = 200 ->
  Response.json response = Raise e ->
  outcome (handle_call_tool self net name arguments)
  = Ok [text_content (error_label name ++ str_exn e)].
Proof.
  unfold tool_names. simpl.
  intros [<- | [<- | [<- | [<- | []]]]] Hans Hst Hjson.
  - rewrite call_search_paper in *. rewrite (search_paper_answered _ _ _ _ Hans).
    now rewrite Hst, Hjson.
  - rewrite call_get_paper in *.
    destruct (get_paper_answered _ _ _ _ Hans) as [paper_id [_ ->]].
    now rewrite (paper_response_200 _ _ _ _ Hst), Hjson.
  - rewrite call_get_authors in *.
    destruct (get_authors_answered _ _ _ _ Hans) as [paper_id [_ ->]].
    now rewrite (paper_response_200 _ _ _ _ Hst), Hjson.
  - rewrite call_get_citation in *.
    destruct (get_citation_answered _ _ _ _ Hans) as [paper_id [fmt [_ [_ ->]]]].
    now rewrite (paper_response_200 _ _ _ _ Hst), Hjson.
Qed.

Lemma malformed_body_text_witness :
  outcome (handle_call_tool server_without_api_key
             (answer_with 200 "<html>" (Raise (Exception "Expecting value")))
             "search_paper" [("query", VStr "machine learning")])
  = Ok [text_content "Error searching papers: Expecting value"]
  /\
  outcome (handle_call_tool server_without_api_key
             (answer_with 200 "<html>" (Raise (Exception "Expecting value")))
             "get_paper" [("paper_id", VStr "abc")])
  = Ok [text_content "Error getting paper details: Expecting value"]
  /\
  outcome (handle_call_tool server_without_api_key
             (answer_with 200 "<html>" (Raise (Exception "Expecting value")))
             "get_authors" [("paper_id", VStr "abc")])
  = Ok [text_content "Error getting authors: Expecting value"]
  /\
  outcome (handle_call_tool server_without_api_key
             (answer_with 200 "<html>" (Raise (Exception "Expecting value")))
             "get_citation" [("paper_id", VStr "abc")])
  = Ok [text_content "Error generating citation: Expecting value"].
Proof.
  split; [|split; [|split]].
  - apply (malformed_body_text server_without_api_key
             (answer_with 200 "<html>" (Raise (Exception "Expecting value")))
             "search_paper" [("query", VStr "machine learning")]
             (Response.mk 200 "<html>" (Raise (Exception "Expecting value")))
             (Exception "Expecting value")).
    + left. reflexivity.
    + eexists. split; [left; reflexivity | reflexivity].
    + reflexivity.
    + reflexivity.
  - apply (malformed_body_text server_without_api_key
             (answer_with 200 "<html>" (Raise (Exception "Expecting value")))
             "get_paper" [("paper_id", VStr "abc")]
             (Response.mk 200 "<html>" (Raise (Exception "Expecting value")))
             (Exception "Expecting value")).
    + right. left. reflexivity.
    + eexists. split; [left; reflexivity | reflexivity].
    + reflexivity.
    + reflexivity.
  - apply (malformed_body_text server_without_api_key
             (answer_with 200 "<html>" (Raise (Exception "Expecting value")))
             "get_authors" [("paper_id", VStr "abc")]
             (Response.mk 200 "<html>" (Raise (Exception "Expecting value")))
             (Exception "Expecting value")).
    + right. right. left. reflexivity.
    + eexists. split; [left; reflexivity | reflexivity].
    + reflexivity.
    + reflexivity.
  - apply (malformed_body_text server_without_api_key
             (answer_with 200 "<html>" (Raise (Exception "Expecting value")))
             "get_citation" [("paper_id", VStr "abc")]
             (Response.mk 200 "<html>" (Raise (Exception "Expecting value")))
             (Exception "Expecting value")).
    + right. right. right. left. reflexivity.
    + eexists. split; [left; reflexivity | reflexivity].
    + reflexivity.
    + reflexivity.
Defined.

(** X5: when the upstream answers a [get_citation] call with HTTP 404, the
    single result is ["Paper not found: "] followed by the [str] of the
    [paper_id] argument, whatever its type. *)
Theorem citation_paper_not_found self net arguments paper_id response :
  dict_get "paper_id" arguments = Some paper_id ->
  answered (handle_call_tool self net "get_citation" arguments) net response ->
  Response.status_code response = 404 ->
  outcome (handle_call_tool self net "get_citation" arguments)
  = Ok [text_content ("Paper not found: " ++ py_str paper_id)].
Proof.
  intros Hid Hans Hst. rewrite call_get_citation in *.
  destruct (get_citation_answered _ _ _ _ Hans) as [paper_id' [fmt [Hid' [_ ->]]]].
  rewrite Hid in Hid'. injection Hid' as <-.
  now apply paper_response_404.
Qed.

Lemma citation_paper_not_found_witness :
  outcome (handle_call_tool server_without_api_key
             (answer_with 404 "Not Found" (Raise (Exception "no body")))
             "get_citation" [("paper_id", VInt 215416146)])
  = Ok [text_content "Paper not found: 215416146"].
Proof.
  apply (citation_paper_not_found server_without_api_key
           (answer_with 404 "Not Found" (Raise (Exception "no body")))
           [("paper_id", VInt 215416146)] (VInt 215416146)
           (Response.mk 404 "Not Found" (Raise (Exception "no body")))).
  - reflexivity.
  - eexists. split; [left; reflexivity | reflexivity].
  - reflexivity.
Defined.

(** ** What a call sends *)

Lemma append_assoc (a b c : string) : ((a ++ b) ++ c = a ++ (b ++ c))%string.
Proof. induction a as [|x a IH]; simpl; [reflexivity | now rewrite IH]. Qed.

Lemma prefix_app_app (a b c : string) : prefix (a ++ b) (a ++ (b ++ c)) = true.
Proof. rewrite <- append_assoc. apply prefix_app. Qed.

(** X6: a tool call never sends more than one request; every request it
    sends has the timeout 30 and a URL that extends the server's base URL by
    ["/paper/"]. *)
Theorem request_shape self net name arguments :
  (length (sent (handle_call_tool self net name arguments)) <= 1)%nat /\
  forall req,
    In req (sent (handle_call_tool self net name arguments)) ->
    timeout req = 30 /\ prefix (base_url self ++ "/paper/") (url req) = true.
Proof.
  unfold handle_call_tool.
  destruct (name =? "search_paper")%string.
  { rewrite search_paper_sent.
    destruct (dict_get "query" arguments); [|split; [simpl; lia | intros req []]].
    destruct (py_min_int _ 100); [|split; [simpl; lia | intros req []]].
    split; [simpl; lia|]. intros req [<-|[]]. split; [reflexivity|].
    apply (prefix_app_app (base_url self) "/paper/" "search"). }
  destruct (name =? "get_paper")%string.
  { rewrite get_paper_sent.
    destruct (dict_get "paper_id" arguments); [|split; [simpl; lia | intros req []]].
    split; [simpl; lia|]. intros req [<-|[]]. split; [reflexivity|].
    apply prefix_app_app. }
  destruct (name =? "get_authors")%string.
  { rewrite get_authors_sent.
    destruct (dict_get "paper_id" arguments); [|split; [simpl; lia | intros req []]].
    destruct (py_min_int _ 1000); [|split; [simpl; lia | intros req []]].
    split; [simpl; lia|]. intros req [<-|[]]. split; [reflexivity|].
    apply prefix_app_app. }
  destruct (name =? "get_citation")%string.
  { rewrite get_citation_sent.
    destruct (dict_get "paper_id" arguments); [|split; [simpl; lia | intros req []]].
    destruct (py_lower _); [|split; [simpl; lia | intros req []]].
    split; [simpl; lia|]. intros req [<-|[]]. split; [reflexivity|].
    apply prefix_app_app. }
  split; [simpl; lia | intros req []].
Qed.

Lemma request_shape_witness :
  exists req,
    sent (handle_call_tool server_without_api_key network_error "get_authors"
            [("paper_id", VStr "abc")]) = [req] /\
    timeout req = 30 /\
    prefix "https://api.semanticscholar.org/graph/v1/paper/" (url req) = true.
Proof.
  eexists. split; [reflexivity|].
  apply (proj2 (request_shape server_without_api_key network_error "get_authors"
                  [("paper_id", VStr "abc")])).
  left. reflexivity.
Defined.

Lemma forward_param_lookup (arguments params : dict) (k k' : string) :
  dict_get k (forward_param arguments params k') =
  if (k' =? k)%string
  then match dict_get k arguments with
       | Some v => Some v
       | None => dict_get k params
       end
  else dict_get k params.
Proof.
  unfold forward_param.
  destruct (String.eqb_spec k' k) as [->|Hne].
  - destruct (dict_get k arguments); [apply dict_get_set_same | reflexivity].
  - destruct (dict_get k' arguments); [now apply dict_get_set_other | reflexivity].
Qed.

Lemma forward_params_lookup (arguments : dict) (k : string) (keys : list string) :
  forall params,
    dict_get k (fold_left (forward_param arguments) keys params) =
    if existsb (fun k' => (k' =? k)%string) keys
    then match dict_get k arguments with
         | Some v => Some v
         | None => dict_get k params
         end
    else dict_get k params.
Proof.
  induction keys as [|k' keys IH]; intros params; simpl; [reflexivity|].
  rewrite IH, forward_param_lookup.
  destruct (k' =? k)%string; simpl;
    destruct (existsb _ keys); destruct (dict_get k arguments); reflexivity.
Qed.

(** The parameters of a [search_paper] request, key by key. *)
Lemma search_params_forwarded (arguments : dict) (query limit : pyval) (k : string) :
  In k queryParams_list ->
  dict_get k (search_paper_params arguments query limit) = dict_get k arguments.
Proof.
  intros Hin. unfold search_paper_params. cbv zeta.
  assert (Hflag : k <> "openAccessPdf").
  { intros ->. revert Hin. unfold queryParams_list. simpl. intuition discriminate. }
  assert (Hfold : dict_get k (fold_left (forward_param arguments) queryParams_list
                                [("query", query);
                                 ("fields", dict_get_default arguments "fields"
                                              (VStr search_paper_default_fields));
                                 ("offset", dict_get_default arguments "offset" (VInt 0));
                                 ("limit", limit)])
                  = dict_get k arguments).
  { rewrite forward_params_lookup.
    revert Hin. unfold queryParams_list. simpl.
    intros [<-|[<-|[<-|[<-|[<-|[<-|[]]]]]]]; simpl;
      match goal with |- context [dict_get ?key arguments] =>
        destruct (dict_get key arguments) end; reflexivity. }
  destruct (truthy _); [rewrite dict_get_set_other by (intro E; now apply Hflag)|];
    exact Hfold.
Qed.

Lemma search_params_unknown (arguments : dict) (query limit : pyval) (k : string) :
  ~ In k search_paper_param_names ->
  dict_get k (search_paper_params arguments query limit) = None.
Proof.
  unfold search_paper_param_names, queryParams_list. simpl. intros Hnot.
  assert (Hflag : "openAccessPdf" <> k) by (intro E; apply Hnot; auto 15).
  unfold search_paper_params. cbv zeta.
  destruct (truthy _); [rewrite dict_get_set_other by exact Hflag|];
    rewrite forward_params_lookup; unfold queryParams_list; cbn [existsb dict_get];
    repeat match goal with
      | |- context [(?key =? k)%string] =>
          destruct (String.eqb_spec key k) as [E|_]; [exfalso; apply Hnot; auto 15|]
      end; reflexivity.
Qed.

(** X7: the six filter arguments of [search_paper] ([publicationTypes],
    [minCitationCount], [publicationDateOrYear], [year], [venue],
    [fieldsOfStudy]) reach the request exactly as given: present with the
    same value when the argument is present (a false-like value such as 0
    included), absent when it is absent. *)
Theorem filters_forwarded_verbatim self net arguments k req :
  In k queryParams_list ->
  In req (sent (handle_call_tool self net "search_paper" arguments)) ->
  dict_get k (params req) = dict_get k arguments.
Proof.
  intros Hk. rewrite call_search_paper, search_paper_sent.
  destruct (dict_get "query" arguments); [|intros []].
  destruct (py_min_int _ 100); [|intros []].
  intros [<-|[]]. now apply search_params_forwarded.
Qed.

Lemma filters_forwarded_verbatim_witness :
  exists req,
    sent (handle_call_tool server_without_api_key network_error "search_paper"
            [("query", VStr "test"); ("minCitationCount", VInt 0);
             ("venue", VStr "Nature,Science")]) = [req] /\
    dict_get "minCitationCount" (params req) = Some (VInt 0) /\
    dict_get "venue" (params req) = Some (VStr "Nature,Science") /\
    dict_get "year" (params req) = None.
Proof.
  eexists. split; [reflexivity|].
  split; [|split].
  - apply (filters_forwarded_verbatim server_without_api_key network_error
             [("query", VStr "test"); ("minCitationCount", VInt 0);
              ("venue", VStr "Nature,Science")] "minCitationCount").
    + unfold queryParams_list. simpl. auto.
    + left. reflexivity.
  - apply (filters_forwarded_verbatim server_without_api_key network_error
             [("query", VStr "test"); ("minCitationCount", VInt 0);
              ("venue", VStr "Nature,Science")] "venue").
    + unfold queryParams_list. simpl. auto 6.
    + left. reflexivity.
  - apply (filters_forwarded_verbatim server_without_api_key network_error
             [("query", VStr "test"); ("minCitationCount", VInt 0);
              ("venue", VStr "Nature,Science")] "year").
    + unfold queryParams_list. simpl. auto 6.
    + left. reflexivity.
Defined.

(** X8: when [openAccessPdf] is absent from the arguments of [search_paper],
    or present with a false-like value ([False], 0, the empty string,
    [None]), no request of the call carries an [openAccessPdf] parameter. *)
Theorem open_access_flag_dropped self net arguments req :
  truthy (dict_get_default arguments "openAccessPdf" VNone) = false ->
  In req (sent (handle_call_tool self net "search_paper" arguments)) ->
  dict_get "openAccessPdf" (params req) = None.
Proof.
  intros Hfalse. rewrite call_search_paper, search_paper_sent.
  destruct (dict_get "query" arguments); [|intros []].
  destruct (py_min_int _ 100); [|intros []].
  intros [<-|[]]. unfold search_paper_request, params.
  now rewrite search_params_open_access, Hfalse.
Qed.

Lemma open_access_flag_dropped_witness :
  exists req,
    sent (handle_call_tool server_without_api_key network_error "search_paper"
            [("query", VStr "test"); ("openAccessPdf", VBool false)]) = [req] /\
    dict_get "openAccessPdf" (params req) = None.
Proof.
  eexists. split; [reflexivity|].
  apply (open_access_flag_dropped server_without_api_key network_error
           [("query", VStr "test"); ("openAccessPdf", VBool false)]).
  - reflexivity.
  - left. reflexivity.
Defined.

(** X9: no tool call sends a query parameter outside [query], [fields],
    [offset], [limit], the six filters and [openAccessPdf]: an argument under
    any other key is never forwarded. *)
Theorem unknown_arguments_not_sent self net name arguments k req :
  ~ In k search_paper_param_names ->
  In req (sent (handle_call_tool self net name arguments)) ->
  dict_get k (params req) = None.
Proof.
  intros Hnot. unfold handle_call_tool.
  assert (Hbase : "fields" <> k /\ "offset" <> k /\ "limit" <> k).
  { unfold search_paper_param_names in Hnot. simpl in Hnot.
    repeat split; intro E; apply Hnot; auto 6. }
  destruct Hbase as [Hf [Ho Hl]].
  apply String.eqb_neq in Hf, Ho, Hl.
  destruct (name =? "search_paper")%string.
  { rewrite search_paper_sent.
    destruct (dict_get "query" arguments); [|intros []].
    destruct (py_min_int _ 100); [|intros []].
    intros [<-|[]]. now apply search_params_unknown. }
  destruct (name =? "get_paper")%string.
  { rewrite get_paper_sent.
    destruct (dict_get "paper_id" arguments); [|intros []].
    intros [<-|[]]. unfold get_paper_request, params. cbn [dict_get].
    now rewrite Hf. }
  destruct (name =? "get_authors")%string.
  { rewrite get_authors_sent.
    destruct (dict_get "paper_id" arguments); [|intros []].
    destruct (py_min_int _ 1000); [|intros []].
    intros [<-|[]]. unfold get_authors_request, params. cbn [dict_get].
    now rewrite Hf, Ho, Hl. }
  destruct (name =? "get_citation")%string.
  { rewrite get_citation_sent.
    destruct (dict_get "paper_id" arguments); [|intros []].
    destruct (py_lower _); [|intros []].
    intros [<-|[]]. unfold get_citation_request, params. cbn [dict_get].
    now rewrite Hf. }
  intros [].
Qed.

Lemma unknown_arguments_not_sent_witness :
  exists req,
    sent (handle_call_tool server_without_api_key network_error "search_paper"
            [("query", VStr "test"); ("sort", VStr "citationCount")]) = [req] /\
    dict_get "sort" (params req) = None.
Proof.
  eexists. split; [reflexivity|].
  apply (unknown_arguments_not_sent server_without_api_key network_error "search_paper"
           [("query", VStr "test"); ("sort", VStr "citationCount")] "sort").
  - unfold search_paper_param_names, queryParams_list. simpl. intuition discriminate.
  - left. reflexivity.
Defined.

(** ** Arguments of the wrong type *)

(** X10: a [limit] argument that is [None], a string (a numeric one
    included), a list or an object makes [search_paper] and [get_authors]
    fail before any request is sent: the result is the labelled [TypeError]
    of the comparison in [min]. *)
Theorem non_integer_limit_rejected self net arguments v :
  dict_get "limit" arguments = Some v ->
  v = VNone \/ (exists s, v = VStr s) \/ (exists items, v = VList items) \/
  (exists entries, v = VDict entries) ->
  (forall query,
     dict_get "query" arguments = Some query ->
     run (handle_call_tool self net "search_paper" arguments)
     = ([], Ok [text_content
                  ("Error searching papers: "
                     ++ "'<' not supported between instances of 'int' and '"
                     ++ type_name v ++ "'")])) /\
  (forall paper_id,
     dict_get "paper_id" arguments = Some paper_id ->
     run (handle_call_tool self net "get_authors" arguments)
     = ([], Ok [text_content
                  ("Error getting authors: "
                     ++ "'<' not supported between instances of 'int' and '"
                     ++ type_name v ++ "'")])).
Proof.
  intros Hlimit Hv.
  rewrite call_search_paper, call_get_authors, run_search_paper, run_get_authors.
  unfold dict_get_default. rewrite Hlimit.
  split; intros x ->;
    destruct Hv as [-> | [[s ->] | [[items ->] | [entries ->]]]]; reflexivity.
Qed.

Lemma non_integer_limit_rejected_witness :
  run (handle_call_tool server_without_api_key (answer_with 200 "{}" (Ok (VDict [])))
         "search_paper" [("query", VStr "test"); ("limit", VStr "5")])
  = ([], Ok [text_content
               "Error searching papers: '<' not supported between instances of 'int' and 'str'"])
  /\
  run (handle_call_tool server_without_api_key (answer_with 200 "{}" (Ok (VDict [])))
         "get_authors" [("paper_id", VStr "abc"); ("limit", VNone)])
  = ([], Ok [text_content
               "Error getting authors: '<' not supported between instances of 'int' and 'NoneType'"]).
Proof.
  split.
  - apply (proj1 (non_integer_limit_rejected server_without_api_key
                    (answer_with 200 "{}" (Ok (VDict [])))
                    [("query", VStr "test"); ("limit", VStr "5")] (VStr "5")
                    eq_refl (or_intror (or_introl (ex_intro _ "5" eq_refl))))
                 (VStr "test") eq_refl).
  - apply (proj2 (non_integer_limit_rejected server_without_api_key
                    (answer_with 200 "{}" (Ok (VDict [])))
                    [("paper_id", VStr "abc"); ("limit", VNone)] VNone
                    eq_refl (or_introl eq_refl))
                 (VStr "abc") eq_refl).
Defined.

(** X11: a [format] argument that is not a string makes [get_citation] fail
    before any request is sent, with the labelled [AttributeError] of
    [.lower()]. *)
Theorem non_string_format_rejected self net arguments paper_id v :
  dict_get "paper_id" arguments = Some paper_id ->
  dict_get "format" arguments = Some v ->
  (forall s, v <> VStr s) ->
  run (handle_call_tool self net "get_citation" arguments)
  = ([], Ok [text_content
               ("Error generating citation: '" ++ type_name v
                  ++ "' object has no attribute 'lower'")]).
Proof.
  intros Hid Hformat Hstr.
  rewrite call_get_citation, run_get_citation, Hid.
  unfold dict_get_default. rewrite Hformat.
  destruct v; try reflexivity. exfalso. eapply Hstr. reflexivity.
Qed.

Lemma non_string_format_rejected_witness :
  run (handle_call_tool server_without_api_key (answer_with 200 "{}" (Ok (VDict [])))
         "get_citation" [("paper_id", VStr "abc"); ("format", VNone)])
  = ([], Ok [text_content
               "Error generating citation: 'NoneType' object has no attribute 'lower'"]).
Proof.
  refine (non_string_format_rejected server_without_api_key
            (answer_with 200 "{}" (Ok (VDict [])))
            [("paper_id", VStr "abc"); ("format", VNone)] (VStr "abc") VNone
            eq_refl eq_refl _).
  intros s E. discriminate E.
Defined.

(** X12: when the upstream answers a [get_citation] call with HTTP 200 and an
    object whose [citationStyles] is [null], a boolean or a number, the
    result is not the "No citation styles" message but the labelled
    [TypeError] of the membership test. *)
Theorem citation_styles_not_a_container self net arguments response data v :
  answered (handle_call_tool self net "get_citation" arguments) net response ->
  Response.status_code response = 200 ->
  Response.json response = Ok (VDict data) ->
  dict_get "citationStyles" data = Some v ->
  v = VNone \/ (exists b, v = VBool b) \/ (exists z, v = VInt z) ->
  outcome (handle_call_tool self net "get_citation" arguments)
  = Ok [text_content
          ("Error generating citation: argument of type '" ++ type_name v
             ++ "' is not iterable")].
Proof.
  intros Hans Hst Hjson Hstyles Hv. rewrite call_get_citation in *.
  destruct (get_citation_answered _ _ _ _ Hans) as [paper_id [fmt [_ [_ ->]]]].
  rewrite (paper_response_200 _ _ _ _ Hst), Hjson, outcome_citation_of_dict, Hstyles.
  destruct Hv as [-> | [[b ->] | [z ->]]]; reflexivity.
Qed.

Lemma citation_styles_not_a_container_witness :
  outcome (handle_call_tool server_without_api_key
             (answer_with 200 "" (Ok (VDict [("paperId", VStr "abc"); ("citationStyles", VNone)])))
             "get_citation" [("paper_id", VStr "abc")])
  = Ok [text_content
          "Error generating citation: argument of type 'NoneType' is not iterable"].
Proof.
  apply (citation_styles_not_a_container server_without_api_key
           (answer_with 200 "" (Ok (VDict [("paperId", VStr "abc"); ("citationStyles", VNone)])))
           [("paper_id", VStr "abc")]
           (Response.mk 200 "" (Ok (VDict [("paperId", VStr "abc"); ("citationStyles", VNone)])))
           [("paperId", VStr "abc"); ("citationStyles", VNone)] VNone).
  - eexists. split; [left; reflexivity | reflexivity].
  - reflexivity.
  - reflexivity.
  - reflexivity.
  - left. reflexivity.
Defined.

(** ** How a call depends on its arguments *)

Ltac listed_key :=
  unfold search_paper_param_names, queryParams_list; simpl; auto 15.

(** [_handle_search_paper] reads its arguments through these lookups only. *)
Lemma search_paper_reads self net (a a' : dict) :
  dict_get "query" a = dict_get "query" a' ->
  dict_get_default a "fields" (VStr search_paper_default_fields)
  = dict_get_default a' "fields" (VStr search_paper_default_fields) ->
  dict_get_default a "offset" (VInt 0) = dict_get_default a' "offset" (VInt 0) ->
  dict_get_default a "limit" (VInt 10) = dict_get_default a' "limit" (VInt 10) ->
  truthy (dict_get_default a "openAccessPdf" VNone)
  = truthy (dict_get_default a' "openAccessPdf" VNone) ->
  (forall k, In k queryParams_list -> dict_get k a = dict_get k a') ->
  run (_handle_search_paper self net a) = run (_handle_search_paper self net a').
Proof.
  intros Hq Hf Ho Hl Hflag H. rewrite !run_search_paper.
  assert (Hparams : forall query limit,
             search_paper_params a query limit = search_paper_params a' query limit).
  { intros query limit. unfold search_paper_params, queryParams_list.
    cbn [fold_left]. unfold forward_param.
    rewrite Hf, Ho, Hflag, (H "publicationTypes"), (H "minCitationCount"),
      (H "publicationDateOrYear"), (H "year"), (H "venue"), (H "fieldsOfStudy")
      by (unfold queryParams_list; simpl; auto 8).
    reflexivity. }
  unfold search_paper_request. rewrite Hq, Hl.
  destruct (dict_get "query" a') as [query|]; [|reflexivity].
  destruct (py_min_int _ 100) as [limit|]; [|reflexivity].
  now rewrite Hparams.
Qed.

Lemma search_paper_cong self net (a a' : dict) :
  (forall k, In k search_paper_param_names -> dict_get k a = dict_get k a') ->
  run (_handle_search_paper self net a) = run (_handle_search_paper self net a').
Proof.
  intros H. apply search_paper_reads; unfold dict_get_default;
    try (rewrite H by listed_key; reflexivity).
  intros k Hk. apply H. unfold search_paper_param_names.
  apply in_or_app. right. apply in_or_app. now left.
Qed.

Lemma get_paper_cong self net (a a' : dict) :
  (forall k, In k ["paper_id"; "fields"] -> dict_get k a = dict_get k a') ->
  run (_handle_get_paper self net a) = run (_handle_get_paper self net a').
Proof.
  intros H. rewrite !run_get_paper.
  unfold get_paper_request, dict_get_default.
  rewrite (H "paper_id"), (H "fields") by (simpl; auto).
  reflexivity.
Qed.

Lemma get_authors_cong self net (a a' : dict) :
  (forall k, In k ["paper_id"; "fields"; "offset"; "limit"] ->
             dict_get k a = dict_get k a') ->
  run (_handle_get_authors self net a) = run (_handle_get_authors self net a').
Proof.
  intros H. rewrite !run_get_authors.
  unfold get_authors_request, dict_get_default.
  rewrite (H "paper_id"), (H "fields"), (H "offset"), (H "limit") by (simpl; auto).
  reflexivity.
Qed.

Lemma get_citation_cong self net (a a' : dict) :
  dict_get "paper_id" a = dict_get "paper_id" a' ->
  py_lower (dict_get_default a "format" (VStr "bibtex"))
  = py_lower (dict_get_default a' "format" (VStr "bibtex")) ->
  run (_handle_get_citation self net a) = run (_handle_get_citation self net a').
Proof.
  intros Hid Hformat. rewrite !run_get_citation. now rewrite Hid, Hformat.
Qed.

(** X13: a tool call depends on its arguments only through the properties
    its [inputSchema] declares: two argument dictionaries that agree on those
    keys (whatever their order, and whatever else they hold) send the same
    request and return the same result. *)
Theorem only_declared_arguments_matter self net t (a a' : dict) :
  In t handle_list_tools ->
  (forall p, schema_property (Tool.inputSchema t) p <> None ->
             dict_get p a = dict_get p a') ->
  run (handle_call_tool self net (Tool.name t) a)
  = run (handle_call_tool self net (Tool.name t) a').
Proof.
  unfold handle_list_tools.
  intros [<-|[<-|[<-|[<-|[]]]]] H; cbn [Tool.name].
  - rewrite !call_search_paper. apply search_paper_cong.
    unfold search_paper_param_names, queryParams_list. simpl.
    intros k Hk. apply H.
    repeat (destruct Hk as [<-|Hk]; [vm_compute; discriminate|]). destruct Hk.
  - rewrite !call_get_paper. apply get_paper_cong. simpl.
    intros k Hk. apply H.
    repeat (destruct Hk as [<-|Hk]; [vm_compute; discriminate|]). destruct Hk.
  - rewrite !call_get_authors. apply get_authors_cong. simpl.
    intros k Hk. apply H.
    repeat (destruct Hk as [<-|Hk]; [vm_compute; discriminate|]). destruct Hk.
  - rewrite !call_get_citation. apply get_citation_cong.
    + apply H. vm_compute. discriminate.
    + unfold dict_get_default. rewrite (H "format"); [reflexivity|].
      vm_compute. discriminate.
Qed.

Lemma only_declared_arguments_matter_witness :
  run (handle_call_tool server_without_api_key network_error "get_authors"
         [("limit", VInt 5); ("paper_id", VStr "abc"); ("verbose", VBool true)])
  = run (handle_call_tool server_without_api_key network_error "get_authors"
           [("paper_id", VStr "abc"); ("limit", VInt 5)]).
Proof.
  refine (only_declared_arguments_matter server_without_api_key network_error
            (nth 2 handle_list_tools (Tool.mk "" "" VNone))
            [("limit", VInt 5); ("paper_id", VStr "abc"); ("verbose", VBool true)]
            [("paper_id", VStr "abc"); ("limit", VInt 5)] _ _).
  - right. right. left. reflexivity.
  - intros p Hp.
    destruct (String.eqb_spec p "verbose") as [->|Hne].
    + exfalso. apply Hp. reflexivity.
    + cbn [dict_get].
      destruct (String.eqb_spec "limit" p) as [<-|Hl]; [reflexivity|].
      destruct (String.eqb_spec "paper_id" p) as [<-|Hi]; [reflexivity|].
      destruct (String.eqb_spec "verbose" p) as [<-|Hv]; [now elim Hne | reflexivity].
Defined.

(** X14: the [format] of [get_citation] is case-insensitive: two calls whose
    arguments have the same [paper_id] and formats equal up to (ASCII) letter
    case send the same request and return the same result. *)
Theorem citation_format_case_insensitive self net (a a' : dict) format format' :
  dict_get "paper_id" a = dict_get "paper_id" a' ->
  dict_get "format" a = Some (VStr format) ->
  dict_get "format" a' = Some (VStr format') ->
  lower format = lower format' ->
  run (handle_call_tool self net "get_citation" a)
  = run (handle_call_tool self net "get_citation" a').
Proof.
  intros Hid Hf Hf' Hlower. rewrite !call_get_citation.
  apply get_citation_cong; [exact Hid|].
  unfold dict_get_default. rewrite Hf, Hf'. simpl py_lower. now rewrite Hlower.
Qed.

Lemma citation_format_case_insensitive_witness :
  run (handle_call_tool server_without_api_key network_error "get_citation"
         [("paper_id", VStr "abc"); ("format", VStr "BibTeX")])
  = run (handle_call_tool server_without_api_key network_error "get_citation"
           [("paper_id", VStr "abc"); ("format", VStr "bibtex")]).
Proof.
  apply (citation_format_case_insensitive server_without_api_key network_error
           [("paper_id", VStr "abc"); ("format", VStr "BibTeX")]
           [("paper_id", VStr "abc"); ("format", VStr "bibtex")] "BibTeX" "bibtex");
    reflexivity.
Defined.

(** ** The descriptors and the handlers *)

Lemma advertised_names : map Tool.name handle_list_tools = tool_names.
Proof. reflexivity. Qed.

Lemma dict_get_set (k k' : string) (v : pyval) (d : dict) :
  dict_get k (dict_set k' v d) = if (k' =? k)%string then Some v else dict_get k d.
Proof.
  destruct (String.eqb_spec k' k) as [->|Hne].
  - apply dict_get_set_same.
  - now apply dict_get_set_other.
Qed.

(** Passing one argument explicitly, seen through the lookups a handler
    makes. *)
Ltac explicit_default Hnone :=
  unfold dict_get_default;
  repeat first [ rewrite dict_get_set_same
               | rewrite dict_get_set_other by discriminate ];
  rewrite ?Hnone; reflexivity.

Lemma search_paper_default self net (a : dict) p d :
  In (p, d) [("fields", VStr search_paper_default_fields); ("offset", VInt 0);
             ("limit", VInt 10); ("openAccessPdf", VBool false)] ->
  dict_get p a = None ->
  run (_handle_search_paper self net (dict_set p d a))
  = run (_handle_search_paper self net a).
Proof.
  intros Hin Hnone. simpl in Hin.
  destruct Hin as [E|[E|[E|[E|[]]]]]; injection E as <- <-;
    (apply search_paper_reads;
     [explicit_default Hnone .. |
      intros k Hk; apply dict_get_set_other; intros <-; revert Hk;
      unfold queryParams_list; simpl; intuition discriminate]).
Qed.

Lemma get_paper_default self net (a : dict) :
  dict_get "fields" a = None ->
  run (_handle_get_paper self net (dict_set "fields" (VStr get_paper_default_fields) a))
  = run (_handle_get_paper self net a).
Proof.
  intros Hnone. rewrite !run_get_paper. unfold get_paper_request.
  explicit_default Hnone.
Qed.

Lemma get_authors_default self net (a : dict) p d :
  In (p, d) [("fields", VStr "authorId,name,affiliations,citationCount,hIndex");
             ("offset", VInt 0); ("limit", VInt 100)] ->
  dict_get p a = None ->
  run (_handle_get_authors self net (dict_set p d a))
  = run (_handle_get_authors self net a).
Proof.
  intros Hin Hnone. rewrite !run_get_authors. unfold get_authors_request.
  simpl in Hin.
  destruct Hin as [E|[E|[E|[]]]]; injection E as <- <-; explicit_default Hnone.
Qed.

Lemma get_citation_default self net (a : dict) :
  dict_get "format" a = None ->
  run (_handle_get_citation self net (dict_set "format" (VStr "bibtex") a))
  = run (_handle_get_citation self net a).
Proof.
  intros Hnone. rewrite !run_get_citation. explicit_default Hnone.
Qed.

Lemma schema_default_declared (schema : pyval) (p : string) (d : pyval) :
  schema_default schema p = Some d -> In (p, d) (declared_defaults schema).
Proof.
  unfold schema_default, schema_property, declared_defaults.
  destruct (pyval_get schema "properties") as [[| | | | |properties]|];
    try discriminate.
  unfold pyval_get at 1.
  induction properties as [|[k info] properties IH]; simpl; [discriminate|].
  destruct (String.eqb_spec k p) as [->|Hne].
  - intros ->. simpl. now left.
  - intros Hd. apply in_or_app. right. now apply IH.
Qed.

(** X15: the defaults the descriptors declare are the defaults the handlers
    apply: for every advertised tool and every property of its schema with a
    [default], except [minCitationCount], adding that property with its
    declared default to arguments that lack it changes neither the request
    nor the result.  ([minCitationCount] is forwarded whenever present, so
    passing its declared 0 adds the parameter to the request.) *)
Theorem declared_defaults_are_applied self net t (a : dict) p d :
  In t handle_list_tools ->
  schema_default (Tool.inputSchema t) p = Some d ->
  p <> "minCitationCount" ->
  dict_get p a = None ->
  run (handle_call_tool self net (Tool.name t) (dict_set p d a))
  = run (handle_call_tool self net (Tool.name t) a).
Proof.
  unfold handle_list_tools.
  intros [<-|[<-|[<-|[<-|[]]]]] Hd Hp Hnone; cbn [Tool.name];
    apply schema_default_declared in Hd; vm_compute in Hd.
  - rewrite !call_search_paper.
    destruct Hd as [E|[E|[E|[E|[E|[]]]]]]; injection E as <- <-;
      try (now elim Hp); apply search_paper_default; simpl; auto.
  - rewrite !call_get_paper.
    destruct Hd as [E|[]]; injection E as <- <-. now apply get_paper_default.
  - rewrite !call_get_authors.
    destruct Hd as [E|[E|[E|[]]]]; injection E as <- <-;
      apply get_authors_default; simpl; auto.
  - rewrite !call_get_citation.
    destruct Hd as [E|[]]; injection E as <- <-. now apply get_citation_default.
Qed.

Lemma declared_defaults_are_applied_witness :
  run (handle_call_tool server_without_api_key network_error "search_paper"
         [("query", VStr "test"); ("limit", VInt 10)])
  = run (handle_call_tool server_without_api_key network_error "search_paper"
           [("query", VStr "test")]).
Proof.
  apply (declared_defaults_are_applied server_without_api_key network_error
           (nth 0 handle_list_tools (Tool.mk "" "" VNone))
           [("query", VStr "test")] "limit" (VInt 10)).
  - left. reflexivity.
  - reflexivity.
  - discriminate.
  - reflexivity.
Defined.

(** X16: [handle_call_tool] accepts exactly the names [handle_list_tools]
    advertises: a call returns a result if and only if its name is the name
    of a listed descriptor. *)
Theorem advertised_tools_are_dispatched self net name arguments :
  (exists t, In t handle_list_tools /\ Tool.name t = name) <->
  (exists tc, outcome (handle_call_tool self net name arguments) = Ok [tc]).
Proof.
  split.
  - intros [t [Hin <-]]. apply known_tool_total.
    rewrite <- advertised_names. now apply in_map.
  - intros [tc Htc].
    destruct (in_dec string_dec name tool_names) as [Hin|Hnot].
    + rewrite <- advertised_names in Hin. apply in_map_iff in Hin.
      destruct Hin as [t [Hname Hin]]. now exists t.
    + unfold outcome in Htc. rewrite (unknown_tool_raises _ _ _ _ Hnot) in Htc.
      discriminate Htc.
Qed.

Lemma advertised_tools_are_dispatched_witness :
  exists tc,
    outcome (handle_call_tool server_without_api_key network_error "get_citation" [])
    = Ok [tc].
Proof.
  apply (proj1 (advertised_tools_are_dispatched server_without_api_key network_error
                  "get_citation" [])).
  exists (nth 3 handle_list_tools (Tool.mk "" "" VNone)).
  split; [right; right; right; left; reflexivity | reflexivity].
Defined.

(** X17: for every advertised tool, a call that lacks a property listed under
    [required] in its schema sends no request and returns the label of the
    tool followed by the quoted name of the missing property. *)
Theorem required_arguments_are_checked self net t arguments r :
  In t handle_list_tools ->
  In (VStr r) (schema_required (Tool.inputSchema t)) ->
  dict_get r arguments = None ->
  run (handle_call_tool self net (Tool.name t) arguments)
  = ([], Ok [text_content (error_label (Tool.name t) ++ repr_str r)]).
Proof.
  unfold handle_list_tools.
  intros [<-|[<-|[<-|[<-|[]]]]] Hreq Hnone; cbn [Tool.name];
    vm_compute in Hreq; destruct Hreq as [E|[]]; injection E as <-.
  - now rewrite call_search_paper, run_search_paper, Hnone.
  - now rewrite call_get_paper, run_get_paper, Hnone.
  - now rewrite call_get_authors, run_get_authors, Hnone.
  - now rewrite call_get_citation, run_get_citation, Hnone.
Qed.

Lemma required_arguments_are_checked_witness :
  run (handle_call_tool server_without_api_key network_error "get_authors"
         [("limit", VInt 5)])
  = ([], Ok [text_content "Error getting authors: 'paper_id'"]).
Proof.
  apply (required_arguments_are_checked server_without_api_key network_error
           (nth 2 handle_list_tools (Tool.mk "" "" VNone))
           [("limit", VInt 5)] "paper_id").
  - right. right. left. reflexivity.
  - left. reflexivity.
  - reflexivity.
Defined.

(** X18: for every advertised tool, a call whose arguments validate against
    its schema (required properties present, declared properties of their
    declared JSON type) sends exactly one request. *)
Theorem conforming_call_sends_one_request self net t arguments :
  In t handle_list_tools ->
  conforms (Tool.inputSchema t) arguments ->
  exists req, sent (handle_call_tool self net (Tool.name t) arguments) = [req].
Proof.
  unfold handle_list_tools.
  intros [<-|[<-|[<-|[<-|[]]]]] [Hreq Hty]; cbn [Tool.name Tool.inputSchema] in *.
  - rewrite call_search_paper, search_paper_sent.
    destruct (dict_get "query" arguments) eqn:Hq;
      [|exfalso; apply (Hreq "query"); [left; reflexivity | exact Hq]].
    unfold dict_get_default.
    destruct (dict_get "limit" arguments) as [v|] eqn:Hl; [|eexists; reflexivity].
    specialize (Hty "limit" _ "integer" v eq_refl eq_refl Hl).
    destruct v; try discriminate Hty. eexists. reflexivity.
  - rewrite call_get_paper, get_paper_sent.
    destruct (dict_get "paper_id" arguments) eqn:Hq;
      [|exfalso; apply (Hreq "paper_id"); [left; reflexivity | exact Hq]].
    eexists. reflexivity.
  - rewrite call_get_authors, get_authors_sent.
    destruct (dict_get "paper_id" arguments) eqn:Hq;
      [|exfalso; apply (Hreq "paper_id"); [left; reflexivity | exact Hq]].
    unfold dict_get_default.
    destruct (dict_get "limit" arguments) as [v|] eqn:Hl; [|eexists; reflexivity].
    specialize (Hty "limit" _ "integer" v eq_refl eq_refl Hl).
    destruct v; try discriminate Hty. eexists. reflexivity.
  - rewrite call_get_citation, get_citation_sent.
    destruct (dict_get "paper_id" arguments) eqn:Hq;
      [|exfalso; apply (Hreq "paper_id"); [left; reflexivity | exact Hq]].
    unfold dict_get_default.
    destruct (dict_get "format" arguments) as [v|] eqn:Hf; [|eexists; reflexivity].
    specialize (Hty "format" _ "string" v eq_refl eq_refl Hf).
    destruct v; try discriminate Hty. eexists. reflexivity.
Qed.

Lemma conforming_call_sends_one_request_witness :
  exists req,
    sent (handle_call_tool server_without_api_key network_error "get_citation"
            [("paper_id", VStr "abc"); ("format", VStr "apa")]) = [req].
Proof.
  apply (conforming_call_sends_one_request server_without_api_key network_error
           (nth 3 handle_list_tools (Tool.mk "" "" VNone))
           [("paper_id", VStr "abc"); ("format", VStr "apa")]).
  - right. right. right. left. reflexivity.
  - split.
    + intros r [E|[]]. injection E as <-. discriminate.
    + intros p info ty v Hinfo Hty.
      cbn [dict_get].
      destruct (String.eqb_spec "paper_id" p) as [<-|_].
      * vm_compute in Hinfo. injection Hinfo as <-. vm_compute in Hty.
        injection Hty as <-. intros E. injection E as <-. reflexivity.
      * destruct (String.eqb_spec "format" p) as [<-|_]; [|discriminate].
        vm_compute in Hinfo. injection Hinfo as <-. vm_compute in Hty.
        injection Hty as <-. intros E. injection E as <-. reflexivity.
Defined.

(** ** The command line *)

Lemma run_printed (m : M (list TextContent.t)) :
  run (results <- m ;; ret (cli.echo_results results)) = printed (run m).
Proof.
  unfold run, bind, ret, printed. destruct (m []) as [log [results|e]]; reflexivity.
Qed.

Lemma cli_api_key (api_key : option string) :
  cli.obj_get (cli.tools api_key) "api_key" = api_key.
Proof. reflexivity. Qed.

(** The arguments [cli.search_paper] builds. *)
Lemma cli_search_arguments (query fields : string) (limit offset : Z)
    (year fields_of_study : option string) (open_access_pdf : bool) :
  let args : dict :=
    [("query", VStr query); ("fields", VStr fields); ("limit", VInt limit);
     ("offset", VInt offset)] in
  let args := if truthy (cli.of_option year)
              then dict_set "year" (cli.of_option year) args else args in
  let args := if truthy (cli.of_option fields_of_study)
              then dict_set "fieldsOfStudy" (cli.of_option fields_of_study) args
              else args in
  let args := if open_access_pdf
              then dict_set "openAccessPdf" (VBool true) args else args in
  dict_get "query" args = Some (VStr query) /\
  dict_get "limit" args = Some (VInt limit).
Proof.
  cbv zeta.
  destruct (truthy (cli.of_option year)), (truthy (cli.of_option fields_of_study)),
    open_access_pdf; split; reflexivity.
Qed.

(** X19: every [tools] command of the command line sends exactly one request
    and calls [click.echo] exactly once, with one text, whatever its
    parameters and whatever the upstream does; it raises nothing.  (The text
    may span several lines; the parsed parameters always hold the required
    argument and an integer limit.) *)
Theorem cli_commands_send_and_print_once net obj :
  (forall query fields limit offset year fields_of_study open_access_pdf,
     exists req text,
       run (cli.search_paper net obj query fields limit offset year fields_of_study
              open_access_pdf) = ([req], Ok [text])) /\
  (forall paper_id fields,
     exists req text, run (cli.get_paper net obj paper_id fields) = ([req], Ok [text])) /\
  (forall paper_id fields limit offset,
     exists req text,
       run (cli.get_authors net obj paper_id fields limit offset) = ([req], Ok [text])) /\
  (forall paper_id citation_format,
     exists req text,
       run (cli.get_citation net obj paper_id citation_format) = ([req], Ok [text])).
Proof.
  repeat split; intros.
  - unfold cli.search_paper. cbv zeta. rewrite run_printed.
    destruct (cli_search_arguments query fields limit offset year fields_of_study
                open_access_pdf) as [Hq Hl].
    cbv zeta in Hq, Hl.
    match goal with |- context [_handle_search_paper ?s net ?a] =>
      set (server := s) in *; set (args := a) in * end.
    destruct (search_paper_total server net args) as [tc Htc].
    pose proof (search_paper_sent server net args) as Hsent.
    unfold dict_get_default in Hsent. rewrite Hq, Hl in Hsent. cbn [py_min_int] in Hsent.
    unfold sent, outcome in *. unfold printed. rewrite Hsent, Htc.
    eexists. eexists. reflexivity.
  - unfold cli.get_paper. cbv zeta. rewrite run_printed.
    match goal with |- context [_handle_get_paper ?s net ?a] =>
      set (server := s) in *; set (args := a) in * end.
    destruct (get_paper_total server net args) as [tc Htc].
    pose proof (get_paper_sent server net args) as Hsent.
    unfold sent, outcome in *. unfold printed. rewrite Hsent, Htc.
    eexists. eexists. reflexivity.
  - unfold cli.get_authors. cbv zeta. rewrite run_printed.
    match goal with |- context [_handle_get_authors ?s net ?a] =>
      set (server := s) in *; set (args := a) in * end.
    destruct (get_authors_total server net args) as [tc Htc].
    pose proof (get_authors_sent server net args) as Hsent.
    unfold sent, outcome in *. unfold printed. rewrite Hsent, Htc.
    eexists. eexists. reflexivity.
  - unfold cli.get_citation. cbv zeta. rewrite run_printed.
    match goal with |- context [_handle_get_citation ?s net ?a] =>
      set (server := s) in *; set (args := a) in * end.
    destruct (get_citation_total server net args) as [tc Htc].
    pose proof (get_citation_sent server net args) as Hsent.
    unfold sent, outcome in *. unfold printed. rewrite Hsent, Htc.
    eexists. eexists. reflexivity.
Qed.

Lemma clamp_limit (limit bound : Z) :
  py_min_int (VInt limit) bound = Ok (VInt (Z.min limit bound)).
Proof. unfold py_min_int. now rewrite clamp_is_min. Qed.

(** X20: the request of the [search_paper] command: the base URL followed by
    ["/paper/search"], and as parameters the query, the fields, the offset,
    the limit clamped to 100, then [year] and [fieldsOfStudy] when given and
    not empty, then an empty [openAccessPdf] when the flag is set; nothing
    else (no [venue], [publicationTypes], [minCitationCount] or
    [publicationDateOrYear] can be sent from the command line). *)
Theorem cli_search_request net obj query fields limit offset year fields_of_study
    open_access_pdf :
  exists req,
    sent (cli.search_paper net obj query fields limit offset year fields_of_study
            open_access_pdf) = [req] /\
    url req = "https://api.semanticscholar.org/graph/v1/paper/search" /\
    params req =
    ([("query", VStr query); ("fields", VStr fields); ("offset", VInt offset);
      ("limit", VInt (Z.min limit 100))]
       ++ optional_param "year" year
       ++ optional_param "fieldsOfStudy" fields_of_study
       ++ (if open_access_pdf then [("openAccessPdf", VStr "")] else []))%list.
Proof.
  unfold sent, cli.search_paper. cbv zeta. rewrite run_printed.
  destruct (cli_search_arguments query fields limit offset year fields_of_study
              open_access_pdf) as [Hq Hl].
  cbv zeta in Hq, Hl.
  match goal with |- context [_handle_search_paper ?s net ?a] =>
    set (server := s) in *; set (args := a) in * end.
  pose proof (search_paper_sent server net args) as Hsent.
  unfold dict_get_default in Hsent. rewrite Hq, Hl, clamp_limit in Hsent.
  unfold sent in Hsent. unfold printed. cbn [fst]. rewrite Hsent.
  eexists. split; [reflexivity|]. split; [reflexivity|].
  subst args. unfold optional_param.
  destruct year as [y|], fields_of_study as [f|], open_access_pdf;
    cbn [cli.of_option truthy];
    try destruct (y =? "")%string; try destruct (f =? "")%string; reflexivity.
Qed.

(** X21: the key given to the [tools] group is the key of every request its
    commands send: the headers are [Accept] alone when the key is absent or
    empty, and [Accept] followed by [x-api-key] with the key otherwise. *)
Theorem cli_api_key_reaches_header net given req :
  (exists query fields limit offset year fields_of_study open_access_pdf,
     In req (sent (cli.search_paper net (cli.tools given) query fields limit offset
                     year fields_of_study open_access_pdf))) \/
  (exists paper_id fields,
     In req (sent (cli.get_paper net (cli.tools given) paper_id fields))) \/
  (exists paper_id fields limit offset,
     In req (sent (cli.get_authors net (cli.tools given) paper_id fields limit offset))) \/
  (exists paper_id citation_format,
     In req (sent (cli.get_citation net (cli.tools given) paper_id citation_format))) ->
  headers req =
  match given with
  | Some key =>
      if (key =? "")%string then [("Accept", "application/json")]
      else [("Accept", "application/json"); ("x-api-key", key)]
  | None => [("Accept", "application/json")]
  end.
Proof.
  assert (Hheaders : _get_headers (cli._get_server_instance
                                     (cli.obj_get (cli.tools given) "api_key"))
                     = match given with
                       | Some key =>
                           if (key =? "")%string then [("Accept", "application/json")]
                           else [("Accept", "application/json"); ("x-api-key", key)]
                       | None => [("Accept", "application/json")]
                       end).
  { rewrite cli_api_key. unfold cli._get_server_instance, _get_headers, __init__.
    cbn [api_key]. destruct given as [key|]; [|reflexivity].
    destruct (key =? "")%string; reflexivity. }
  rewrite <- Hheaders.
  intros [H|[H|[H|H]]].
  - destruct H as [query [fields [limit [offset [year [fos [flag Hin]]]]]]].
    unfold sent, cli.search_paper in Hin. cbv zeta in Hin. rewrite run_printed in Hin.
    unfold printed in Hin. cbn [fst] in Hin.
    eapply (call_tool_headers _ net "search_paper"). exact Hin.
  - destruct H as [paper_id [fields Hin]].
    unfold sent, cli.get_paper in Hin. cbv zeta in Hin. rewrite run_printed in Hin.
    unfold printed in Hin. cbn [fst] in Hin.
    eapply (call_tool_headers _ net "get_paper"). exact Hin.
  - destruct H as [paper_id [fields [limit [offset Hin]]]].
    unfold sent, cli.get_authors in Hin. cbv zeta in Hin. rewrite run_printed in Hin.
    unfold printed in Hin. cbn [fst] in Hin.
    eapply (call_tool_headers _ net "get_authors"). exact Hin.
  - destruct H as [paper_id [citation_format Hin]].
    unfold sent, cli.get_citation in Hin. cbv zeta in Hin. rewrite run_printed in Hin.
    unfold printed in Hin. cbn [fst] in Hin.
    eapply (call_tool_headers _ net "get_citation"). exact Hin.
Qed.

Lemma cli_api_key_reaches_header_witness :
  exists req,
    sent (cli.get_paper network_error (cli.tools (Some "test-api-key")) "abc" "title")
    = [req] /\
    headers req = [("Accept", "application/json"); ("x-api-key", "test-api-key")].
Proof.
  eexists. split; [reflexivity|].
  apply (cli_api_key_reaches_header network_error (Some "test-api-key")).
  right. left. exists "abc", "title". left. reflexivity.
Defined.

(** X22: the option defaults of the command line are the defaults of the
    tools: a command run with its default options sends the request and
    prints the text of the tool called with the required argument alone. *)
Theorem cli_defaults_match_tool_defaults net obj :
  (forall query,
     run (cli.search_paper net obj query
            "paperId,title,abstract,authors,year,citationCount" 10 0 None None false)
     = printed (run (handle_call_tool (cli._get_server_instance (cli.obj_get obj "api_key"))
                       net "search_paper" [("query", VStr query)]))) /\
  (forall paper_id,
     run (cli.get_paper net obj paper_id
            "paperId,title,abstract,authors,year,citationCount,referenceCount,fieldsOfStudy,publicationTypes,publicationDate,journal,openAccessPdf")
     = printed (run (handle_call_tool (cli._get_server_instance (cli.obj_get obj "api_key"))
                       net "get_paper" [("paper_id", VStr paper_id)]))) /\
  (forall paper_id,
     run (cli.get_authors net obj paper_id
            "authorId,name,affiliations,citationCount,hIndex" 100 0)
     = printed (run (handle_call_tool (cli._get_server_instance (cli.obj_get obj "api_key"))
                       net "get_authors" [("paper_id", VStr paper_id)]))) /\
  (forall paper_id,
     run (cli.get_citation net obj paper_id "bibtex")
     = printed (run (handle_call_tool (cli._get_server_instance (cli.obj_get obj "api_key"))
                       net "get_citation" [("paper_id", VStr paper_id)]))).
Proof.
  repeat split; intros.
  - unfold cli.search_paper. cbv zeta. rewrite run_printed, call_search_paper.
    cbn [cli.of_option truthy]. f_equal.
  - unfold cli.get_paper. cbv zeta. rewrite run_printed, call_get_paper. f_equal.
  - unfold cli.get_authors. cbv zeta. rewrite run_printed, call_get_authors. f_equal.
  - unfold cli.get_citation. cbv zeta. rewrite run_printed, call_get_citation. f_equal.
Qed.
